(** * okxx: the scoring bridge, its fallback heuristic and the training loop

    A shallow embedding of the parts of the repository that the
    specification talks about:

    - [src/src/ml_client.py] (Rust source): [MLClient] with its stored
      connection, [MLClient::send_request], [MetalMLEngine::predict] and the
      heuristic [MetalMLEngine::predict_fallback];
    - [src/src/ml_engine.py]: [ArbitrageMLEngine.extract_features],
      [train_batch], [predict], [batch_predict] and
      [MLWebSocketServer.handle_client];
    - [src/ml/arbML.py]: [ArbitrageML.preprocess_opportunity], the forward
      pass of [ArbitragePredictor], [predict], [recommend_action],
      [train_on_batch] and the buffering policy of [process_stream].

    Floating-point numbers are IEEE 754 values ([spec_float]) with the
    operations of the Standard Library's [SpecFloat], instantiated at
    binary64 for Rust's [f64] and Python's [float] and at binary32 for
    [torch.float32]. *)

From Stdlib Require Import ZArith List Bool Lia Ascii String.
From Stdlib Require Import SpecFloat.
From stdpp Require Import base option list strings gmap.

Set Warnings "-register-all".

Import ListNotations.
Local Open Scope Z_scope.

(** ** IEEE 754 numbers *)

(** Operations of one binary format, given by its precision [prec] and the
    exponent [emax] of its infinities. *)
Module IEEE.
Section Format.
Variables prec emax : Z.

(** An integer converted to the format, rounded to nearest even. *)
Definition of_Z (z : Z) : spec_float :=
  binary_normalize prec emax z 0 false.

(** The value of the decimal literal [n/d]: the quotient of two exactly
    represented integers, correctly rounded. *)
Definition lit (n d : Z) : spec_float :=
  SFdiv prec emax (of_Z n) (of_Z d).

(** A value of a wider format rounded into this one, to nearest even; what
    is too large becomes an infinity. *)
Definition round (x : spec_float) : spec_float :=
  match x with
  | S754_finite s m e => binary_round prec emax s m e
  | _ => x
  end.

End Format.

Definition is_nan (x : spec_float) : bool :=
  match x with S754_nan => true | _ => false end.

Definition is_finite (x : spec_float) : bool :=
  match x with S754_zero _ | S754_finite _ _ _ => true | _ => false end.

End IEEE.

(** Rust's [f64] and Python's [float]: binary64. *)
Module F64.

Definition t := spec_float.
Definition prec := 53.
Definition emax := 1024.

Definition add : t -> t -> t := SFadd prec emax.
Definition sub : t -> t -> t := SFsub prec emax.
Definition mul : t -> t -> t := SFmul prec emax.
Definition div : t -> t -> t := SFdiv prec emax.
Definition ltb : t -> t -> bool := SFltb.
Definition leb : t -> t -> bool := SFleb.
Definition of_Z : Z -> t := IEEE.of_Z prec emax.
Definition lit : Z -> Z -> t := IEEE.lit prec emax.
Definition is_nan : t -> bool := IEEE.is_nan.
Definition is_finite : t -> bool := IEEE.is_finite.
Definition zero : t := S754_zero false.

(** Rust's [f64::max] and [f64::min]: a NaN argument is ignored and the
    other argument is returned. *)
Definition max (a b : t) : t :=
  if is_nan a then b
  else if is_nan b then a
  else if ltb a b then b else a.

Definition min (a b : t) : t :=
  if is_nan a then b
  else if is_nan b then a
  else if ltb b a then b else a.

End F64.

(** [torch.float32]: binary32. *)
Module F32.

Definition t := spec_float.
Definition prec := 24.
Definition emax := 128.

Definition add : t -> t -> t := SFadd prec emax.
Definition sub : t -> t -> t := SFsub prec emax.
Definition mul : t -> t -> t := SFmul prec emax.
Definition div : t -> t -> t := SFdiv prec emax.
Definition sqrt : t -> t := SFsqrt prec emax.
Definition ltb : t -> t -> bool := SFltb.
Definition zero : t := S754_zero false.
Definition of_Z : Z -> t := IEEE.of_Z prec emax.
Definition round : spec_float -> t := IEEE.round prec emax.
Definition is_nan : t -> bool := IEEE.is_nan.
Definition is_finite : t -> bool := IEEE.is_finite.

End F32.

Abbreviation f64 := F64.t.
Abbreviation f32 := F32.t.

(** ** Results

    Rust's [Result] and Python's exceptions: a computation returns a value
    or stops with an error. *)

Inductive Result (E A : Type) :=
| Ok (a : A)
| Err (e : E).
Arguments Ok {E A} a.
Arguments Err {E A} e.

#[export] Instance Result_ret {E} : MRet (Result E) := fun _ a => Ok a.
#[export] Instance Result_bind {E} : MBind (Result E) := fun _ _ f m =>
  match m with Ok a => f a | Err e => Err e end.
#[export] Instance Result_fmap {E} : FMap (Result E) := fun _ _ f m =>
  match m with Ok a => Ok (f a) | Err e => Err e end.

Definition is_ok {E A} (r : Result E A) : bool :=
  match r with Ok _ => true | Err _ => false end.

(** [[f(x) for x in l]]: the results in order, or the first error. *)
Fixpoint traverse {E A B} (f : A -> Result E B) (l : list A)
  : Result E (list B) :=
  match l with
  | [] => Ok []
  | x :: l' => y ← f x; ys ← traverse f l'; mret (y :: ys)
  end.

(** ** The Rust client: [src/src/ml_client.py] *)

Module Client.

(** [crate::types::Chain]; [OtherChain] stands for the variants that the
    client's wildcard arms cover. *)
Inductive Chain :=
| Ethereum | BinanceSmartChain | Polygon | Arbitrum | Optimism
| Avalanche | Fantom | Solana | Base | OtherChain.

(** [rust_decimal::Decimal] is used only through [to_f64]: a decimal is
    represented by the result of that conversion. *)
Definition Decimal := option f64.
Definition to_f64 (d : Decimal) : option f64 := d.

Definition unwrap_or {A} (o : option A) (d : A) : A :=
  match o with Some a => a | None => d end.

(** [crate::types::ArbitrageOpportunity], with the fields the client reads.
    [timestamp] is in seconds since the Unix epoch (UTC). *)
Record ArbitrageOpportunity := {
  initial_amount : Decimal;
  roi_percentage : f64;
  path : list string;
  total_gas_cost : Decimal;
  flash_loan_fee : Decimal;
  timestamp : Z;
  chain : Chain;
  execution_time_ms : Z;
  profit_usd : f64
}.

Record OpportunityData := {
  od_initial_amount : f64;
  od_roi_percentage : f64;
  od_path_length : f64;
  od_gas_cost : f64;
  od_flash_loan_fee : f64;
  od_hour : f64;
  od_day_of_week : f64;
  od_chain_id : f64;
  od_execution_time : f64;
  od_volume_ratio : f64;
  od_price_spread : f64;
  od_liquidity_depth : f64
}.

Record MLRequest := {
  request_type : string;
  opportunity : option OpportunityData;
  opportunities : option (list OpportunityData);
  targets : option (list f64)
}.

Record MLResponse := {
  response_type : string;
  score : option f64;
  scores : option (list f64);
  confidence : option f64;
  loss : option f64;
  importance : option (list (string * f64));
  resp_timestamp : string
}.

Inductive Error :=
| ConnectError
| SendError
| ReceiveError
| JsonError
| UnexpectedMessageType
| NoConnectionAvailable.

Abbreviation Result := (Result Error).

(** A websocket stream, named by the number of the handshake that opened
    it. *)
Definition WebSocketStream := nat.

(** A frame read from the stream.  A text frame is represented by what
    [serde_json::from_str::<MLResponse>] makes of its text: [None] when the
    text does not deserialize. *)
Inductive Message :=
| Text (parsed : option MLResponse)
| Binary
| Ping
| Pong
| Close.

(** What the network does during one call of [send_request]:
    [connect_async] is the outcome of a handshake ([None]: it fails),
    [ws_send] tells whether the send succeeds, [ws_next] is the outcome of
    reading the stream ([None]: the stream has ended). *)
Record Net := {
  connect_async : option WebSocketStream;
  ws_send : bool;
  ws_next : option (Result Message)
}.

(** What a call does on the network, in order. *)
Inductive Event :=
| EvConnect
| EvSend (ws : WebSocketStream)
| EvNext (ws : WebSocketStream).

Record MLClient := {
  ws_url : string;
  connection : option WebSocketStream
}.

Definition new : MLClient :=
  {| ws_url := "ws://127.0.0.1:8765"; connection := None |}.

(** [MLClient::connect] *)
Definition connect (c : MLClient) (net : Net) : Result unit * MLClient :=
  match connect_async net with
  | None => (Err ConnectError, c)
  | Some ws_stream =>
      (Ok tt, {| ws_url := ws_url c; connection := Some ws_stream |})
  end.

(** [MLClient::send_request]: the result, the client afterwards and the
    network events of the call. *)
Definition send_request (c : MLClient) (net : Net) (request : MLRequest)
  : Result MLResponse * MLClient * list Event :=
  let '(connected, c1, ev1) :=
    match connection c with
    | None => let '(r, c') := connect c net in (r, c', [EvConnect])
    | Some _ => (Ok tt, c, [])
    end in
  match connected with
  | Err e => (Err e, c1, ev1)
  | Ok _ =>
      match connection c1 with
      | Some ws =>
          if ws_send net then
            match ws_next net with
            | Some msg =>
                match msg with
                | Err e => (Err e, c1, ev1 ++ [EvSend ws; EvNext ws])
                | Ok (Text text) =>
                    match text with
                    | Some response =>
                        (Ok response, c1, ev1 ++ [EvSend ws; EvNext ws])
                    | None => (Err JsonError, c1, ev1 ++ [EvSend ws; EvNext ws])
                    end
                | Ok _ =>
                    (Err UnexpectedMessageType, c1,
                     ev1 ++ [EvSend ws; EvNext ws])
                end
            | None =>
                (Err NoConnectionAvailable, c1, ev1 ++ [EvSend ws; EvNext ws])
            end
          else (Err SendError, c1, ev1 ++ [EvSend ws])
      | None => (Err NoConnectionAvailable, c1, ev1)
      end
  end.

Definition chain_id_of (ch : Chain) : f64 :=
  match ch with
  | Ethereum => F64.of_Z 1
  | BinanceSmartChain => F64.of_Z 2
  | Polygon => F64.of_Z 3
  | Arbitrum => F64.of_Z 4
  | Optimism => F64.of_Z 5
  | Avalanche => F64.of_Z 6
  | Fantom => F64.of_Z 7
  | Solana => F64.of_Z 8
  | Base => F64.of_Z 9
  | OtherChain => F64.of_Z 0
  end.

(** [chrono]'s [hour()] and [weekday().num_days_from_monday()] of a UTC
    timestamp; 1 January 1970 was a Thursday. *)
Definition hour (ts : Z) : Z := (ts mod 86400) / 3600.
Definition num_days_from_monday (ts : Z) : Z := (ts / 86400 + 3) mod 7.

(** [MLClient::convert_opportunity] *)
Definition convert_opportunity (opp : ArbitrageOpportunity) : OpportunityData :=
  {| od_initial_amount := unwrap_or (to_f64 (initial_amount opp)) F64.zero;
     od_roi_percentage := roi_percentage opp;
     od_path_length := F64.of_Z (Z.of_nat (length (path opp)));
     od_gas_cost := unwrap_or (to_f64 (total_gas_cost opp)) F64.zero;
     od_flash_loan_fee := unwrap_or (to_f64 (flash_loan_fee opp)) F64.zero;
     od_hour := F64.of_Z (hour (timestamp opp));
     od_day_of_week := F64.of_Z (num_days_from_monday (timestamp opp));
     od_chain_id := chain_id_of (chain opp);
     od_execution_time := F64.of_Z (execution_time_ms opp);
     od_volume_ratio := F64.of_Z 1;
     od_price_spread := F64.div (roi_percentage opp) (F64.of_Z 100);
     od_liquidity_depth :=
       F64.mul (unwrap_or (to_f64 (initial_amount opp)) F64.zero)
               (F64.of_Z 100) |}.

(** [MLClient::predict] *)
Definition predict (c : MLClient) (net : Net) (opp : ArbitrageOpportunity)
  : Result f64 * MLClient * list Event :=
  let request :=
    {| request_type := "predict";
       opportunity := Some (convert_opportunity opp);
       opportunities := None;
       targets := None |} in
  let '(response, c', ev) := send_request c net request in
  match response with
  | Err e => (Err e, c', ev)
  | Ok response => (Ok (unwrap_or (score response) F64.zero), c', ev)
  end.

End Client.

(** [MetalMLEngine]: the remote scorer with the local heuristic behind it. *)
Module MetalMLEngine.
Import Client.

Record t := { client : MLClient }.

Definition new : t := {| client := Client.new |}.

Definition chain_bonus (ch : Chain) : f64 :=
  match ch with
  | Polygon | Arbitrum => F64.of_Z 10
  | Ethereum => F64.of_Z 5
  | _ => F64.of_Z 7
  end.

(** [MetalMLEngine::predict_fallback] *)
Definition predict_fallback (opp : ArbitrageOpportunity) : f64 :=
  let score := F64.zero in
  let score := F64.add score (F64.mul (roi_percentage opp) (F64.lit 3 10)) in
  let gas_ratio :=
    F64.div (unwrap_or (to_f64 (total_gas_cost opp)) F64.zero)
            (F64.max (profit_usd opp) (F64.of_Z 1)) in
  let score :=
    F64.add score
      (F64.mul (F64.sub (F64.of_Z 1) (F64.min gas_ratio (F64.of_Z 1)))
               (F64.of_Z 20)) in
  let score :=
    F64.add score
      (F64.mul
         (F64.max (F64.sub (F64.of_Z 5) (F64.of_Z (Z.of_nat (length (path opp)))))
                  F64.zero)
         (F64.of_Z 5)) in
  let score := F64.add score (chain_bonus (chain opp)) in
  F64.min (F64.max score F64.zero) (F64.of_Z 100).

(** [MetalMLEngine::predict]: the score, and the engine and the network
    events afterwards. *)
Definition predict (e : t) (net : Net) (opp : ArbitrageOpportunity)
  : f64 * t * list Event :=
  let '(r, c', ev) := Client.predict (client e) net opp in
  match r with
  | Ok score => (score, {| client := c' |}, ev)
  | Err _ => (predict_fallback opp, {| client := c' |}, ev)
  end.

End MetalMLEngine.

(** ** Python values and exceptions *)

Module Py.

Inductive ExnKind :=
| JSONDecodeError
| KeyError
| TypeError
| AttributeError
| IndexError
| ValueError
| ZeroDivisionError
| RuntimeError.

(** An exception, with the text [str(e)] gives for it (abbreviated). *)
Record Exn := Exception { kind : ExnKind; message : string }.

Abbreviation M := (Result Exn).

Definition raise {A} (k : ExnKind) (msg : string) : M A :=
  Err (Exception k msg).

(** The values [json.loads] produces and [json.dumps] consumes, and
    [numpy.float32] scalars.  A number is a [float]: the client sends every
    number as an [f64], and a record read from a stream is covered when its
    numbers are written with a fraction or an exponent.  Python's unbounded
    [int], which [json.loads] makes of an integer literal, has no
    constructor here; the integer constants of the code itself are small
    and are given by the floats equal to them. *)
Inductive Value :=
| VNone
| VBool (b : bool)
| VFloat (x : f64)
| VStr (s : string)
| VList (l : list Value)
| VDict (d : gmap string Value)
| VFloat32 (x : f32).

Definition of_Z (z : Z) : Value := VFloat (F64.of_Z z).

(** [o.get(key, default)] *)
Definition get (o : Value) (key : string) (default : Value) : M Value :=
  match o with
  | VDict d =>
      Ok (match d !! key with Some v => v | None => default end)
  | _ => raise AttributeError "object has no attribute 'get'"
  end.

(** [o[key]] for a string [key] *)
Definition getitem (o : Value) (key : string) : M Value :=
  match o with
  | VDict d =>
      match d !! key with
      | Some v => Ok v
      | None => raise KeyError key
      end
  | _ => raise TypeError "object is not subscriptable by a string"
  end.

(** A number as an operand of arithmetic: [bool] is a subclass of [int]. *)
Definition as_float (v : Value) : M f64 :=
  match v with
  | VFloat x | VFloat32 x => Ok x
  | VBool b => Ok (F64.of_Z (if b then 1 else 0))
  | _ => raise TypeError "unsupported operand type(s)"
  end.

Definition is_zero (x : f64) : bool :=
  match x with S754_zero _ => true | _ => false end.

(** [a / b] *)
Definition truediv (a b : Value) : M Value :=
  x ← as_float a;
  y ← as_float b;
  if is_zero y then raise ZeroDivisionError "division by zero"
  else Ok (VFloat (F64.div x y)).

(** [min(a, b)] and [max(a, b)] on numbers: the first argument is kept
    unless the second compares strictly smaller (larger). *)
Definition min2 (a b : f64) : f64 := if F64.ltb b a then b else a.
Definition max2 (a b : f64) : f64 := if F64.ltb a b then b else a.

(** [v == s] for a string literal [s] *)
Definition eq_str (v : Value) (s : string) : bool :=
  match v with VStr s' => String.eqb s' s | _ => false end.

(** Truth value of [v] in a condition *)
Definition truthy (v : Value) : bool :=
  match v with
  | VNone => false
  | VBool b => b
  | VFloat x | VFloat32 x => negb (is_zero x)
  | VStr s => negb (String.eqb s "")
  | VList l => negb (Nat.eqb (length l) 0)
  | VDict d => negb (Nat.eqb (size d) 0)
  end.

Definition chars (s : string) : list Value :=
  map (fun c => VStr (String c EmptyString)) (list_ascii_of_string s).

(** The elements [for x in v] runs over: a dictionary yields its keys, a
    string its characters. *)
Definition iter (v : Value) : M (list Value) :=
  match v with
  | VList l => Ok l
  | VDict d => Ok (map (fun kv => VStr (fst kv)) (map_to_list d))
  | VStr s => Ok (chars s)
  | _ => raise TypeError "object is not iterable"
  end.

(** [json.dumps(v)] fails on a value that holds a [numpy.float32]; the text
    it returns otherwise is represented by the value itself. *)
Fixpoint serializable (v : Value) : bool :=
  match v with
  | VFloat32 _ => false
  | VList l => forallb serializable l
  | VDict d => map_fold (fun _ x acc => serializable x && acc) true d
  | _ => true
  end.

Definition json_dumps (v : Value) : M Value :=
  if serializable v then Ok v
  else raise TypeError "Object of type float32 is not JSON serializable".

(** A dictionary display [{k1: v1, ...}] *)
Definition dict (kvs : list (string * Value)) : Value :=
  VDict (list_to_map kvs).

End Py.

(** ** Tensors and the network: [torch] as [src/src/ml_engine.py] uses it *)

Module Torch.
Import Py.

(** [float32] tensors of rank 0, 1 and 2, the ranks the engine builds. *)
Inductive Tensor :=
| T0 (x : f32)
| T1 (v : list f32)
| T2 (ncols : nat) (rows : list (list f32)).

Definition shape (t : Tensor) : list nat :=
  match t with
  | T0 _ => []
  | T1 v => [length v]
  | T2 c rows => [length rows; c]
  end.

(** An element of [torch.tensor(..., dtype=torch.float32)] *)
Definition to_float32 (v : Value) : M f32 :=
  match v with
  | VFloat x | VFloat32 x => Ok (F32.round x)
  | VBool b => Ok (F32.of_Z (if b then 1 else 0))
  | _ => raise TypeError "not a number"
  end.

(** [torch.tensor(v, dtype=torch.float32)] for a number or a list of
    numbers *)
Definition tensor (v : Value) : M Tensor :=
  match v with
  | VList l => T1 <$> traverse to_float32 l
  | VFloat _ | VFloat32 _ | VBool _ => T0 <$> to_float32 v
  | _ => raise TypeError "not a sequence of numbers"
  end.

(** [torch.stack(ts)] of rank-1 tensors of equal length; it refuses the
    empty list. *)
Definition stack (ts : list (list f32)) : M Tensor :=
  match ts with
  | [] => raise RuntimeError "stack expects a non-empty TensorList"
  | v :: _ =>
      if forallb (fun w => Nat.eqb (length w) (length v)) ts
      then Ok (T2 (length v) ts)
      else raise RuntimeError "stack expects each tensor to be equal size"
  end.

(** [t.unsqueeze(0)] and [t.unsqueeze(1)] *)
Definition unsqueeze0 (t : Tensor) : M Tensor :=
  match t with
  | T0 x => Ok (T1 [x])
  | T1 v => Ok (T2 (length v) [v])
  | T2 _ _ => raise RuntimeError "rank 3 is not modelled"
  end.

Definition unsqueeze1 (t : Tensor) : M Tensor :=
  match t with
  | T0 _ => raise IndexError "Dimension out of range"
  | T1 v => Ok (T2 1 (map (fun x => [x]) v))
  | T2 _ _ => raise RuntimeError "rank 3 is not modelled"
  end.

(** [t.squeeze()]: every dimension of size 1 is removed. *)
Definition squeeze (t : Tensor) : Tensor :=
  match t with
  | T0 x => T0 x
  | T1 [x] => T0 x
  | T1 v => T1 v
  | T2 1%nat [[x]] => T0 x
  | T2 1%nat rows => T1 (concat rows)
  | T2 _ [v] => T1 v
  | T2 c rows => T2 c rows
  end.

(** [t.tolist()]: a tensor of rank 0 gives a number, not a list. *)
Definition tolist (t : Tensor) : Value :=
  match t with
  | T0 x => VFloat x
  | T1 v => VList (map VFloat v)
  | T2 _ rows => VList (map (fun v => VList (map VFloat v)) rows)
  end.

(** [t.item()]: the tensor must hold one element. *)
Definition item (t : Tensor) : M f64 :=
  match t with
  | T0 x | T1 [x] | T2 1%nat [[x]] => Ok x
  | _ => raise RuntimeError "a Tensor with several elements cannot be converted to Scalar"
  end.

(** *** Layers of [MetalOptimizedNN], in evaluation mode *)

Inductive Layer :=
| Linear (in_features : nat) (weight : list (list f32)) (bias : list f32)
| BatchNorm1d (num_features : nat)
    (running_mean running_var weight bias : list f32) (eps : f32)
| ReLU
| Dropout (p : f32).

Definition dot (x w : list f32) : f32 :=
  fold_left (fun acc xw => F32.add acc (F32.mul (fst xw) (snd xw)))
            (zip x w) F32.zero.

(** [x @ W^T + b] for one row [x] *)
Definition linear_row (weight : list (list f32)) (bias : list f32)
  (x : list f32) : list f32 :=
  zip_with F32.add (map (dot x) weight) bias.

(** [(x - mean) / sqrt(var + eps) * weight + bias] with the running
    statistics *)
Definition batch_norm_row (running_mean running_var weight bias : list f32)
  (eps : f32) (x : list f32) : list f32 :=
  zip_with F32.add
    (zip_with F32.mul
       (zip_with F32.div
          (zip_with F32.sub x running_mean)
          (map (fun v => F32.sqrt (F32.add v eps)) running_var))
       weight)
    bias.

Definition relu (x : f32) : f32 := if F32.ltb x F32.zero then F32.zero else x.

Definition features_of (l : Layer) (c : nat) : nat :=
  match l with
  | Linear _ weight _ => length weight
  | _ => c
  end.

(** What a layer does to one row in evaluation mode: dropout is the
    identity. *)
Definition eval_row (l : Layer) (x : list f32) : list f32 :=
  match l with
  | Linear _ weight bias => linear_row weight bias x
  | BatchNorm1d _ rm rv w b eps => batch_norm_row rm rv w b eps x
  | ReLU => map relu x
  | Dropout _ => x
  end.

Definition accepts (l : Layer) (c : nat) : bool :=
  match l with
  | Linear in_features _ _ => Nat.eqb c in_features
  | BatchNorm1d num_features _ _ _ _ _ => Nat.eqb c num_features
  | _ => true
  end.

(** A layer applied to a batch [(N, c)] in evaluation mode. *)
Definition eval_layer (l : Layer) (t : Tensor) : M Tensor :=
  match t with
  | T2 c rows =>
      if accepts l c then Ok (T2 (features_of l c) (map (eval_row l) rows))
      else raise RuntimeError "shapes cannot be multiplied"
  | _ => raise RuntimeError "expected a 2D input"
  end.

Record MetalOptimizedNN := {
  layers : list Layer;
  output : Layer;
  training : bool
}.

(** [model.eval()] and [model.train()] *)
Definition eval (m : MetalOptimizedNN) : MetalOptimizedNN :=
  {| layers := layers m; output := output m; training := false |}.

Definition train (m : MetalOptimizedNN) : MetalOptimizedNN :=
  {| layers := layers m; output := output m; training := true |}.

(** [MetalOptimizedNN.forward] of a model in evaluation mode *)
Definition forward_eval (m : MetalOptimizedNN) (x : Tensor) : M Tensor :=
  x ← foldl (fun acc layer => x ← acc; eval_layer layer x) (Ok x) (layers m);
  eval_layer (output m) x.

(** [F.mse_loss(predictions, targets)] for shapes [(N, 1)] and [(M, 1)]: the
    mean of the squared differences, a lone row being broadcast. *)
Definition squared_error (p t : f32) : f32 :=
  let d := F32.sub p t in F32.mul d d.

Definition mean (v : list f32) : f32 :=
  F32.div (fold_left F32.add v F32.zero) (F32.of_Z (Z.of_nat (length v))).

Definition mse_loss (predictions targets : Tensor) : M f32 :=
  match predictions, targets with
  | T2 1%nat ps, T2 1%nat ts =>
      let ps := concat ps in
      let ts := concat ts in
      if Nat.eqb (length ps) (length ts) then
        Ok (mean (zip_with squared_error ps ts))
      else
        match ps, ts with
        | [p], _ => Ok (mean (map (squared_error p) ts))
        | _, [t] => Ok (mean (map (fun p => squared_error p t) ps))
        | _, _ =>
            raise RuntimeError "The size of tensor a must match the size of tensor b"
        end
  | _, _ => raise RuntimeError "shapes are not modelled"
  end.

End Torch.

(** ** The scoring engine and its server: [src/src/ml_engine.py] *)

Module Engine.
Import Py Torch.

Definition feature_names : list string :=
  ["initial_amount"; "roi_percentage"; "path_length"; "gas_cost";
   "flash_loan_fee"; "hour"; "day_of_week"; "chain_id";
   "execution_time"; "volume_ratio"; "price_spread"; "liquidity_depth"].

(** [ArbitrageMLEngine.extract_features]: the twelve list elements are
    evaluated in order, then [torch.tensor] converts them. *)
Definition extract_features (opportunity : Value) : M (list f32) :=
  f0 ← (v ← get opportunity "initial_amount" (of_Z 0); truediv v (of_Z 10000));
  f1 ← (v ← get opportunity "roi_percentage" (of_Z 0); truediv v (of_Z 100));
  f2 ← (v ← get opportunity "path_length" (of_Z 1); truediv v (of_Z 5));
  f3 ← (v ← get opportunity "gas_cost" (of_Z 0); truediv v (of_Z 1000));
  f4 ← (v ← get opportunity "flash_loan_fee" (of_Z 0); truediv v (of_Z 100));
  f5 ← (v ← get opportunity "hour" (of_Z 0); truediv v (of_Z 24));
  f6 ← (v ← get opportunity "day_of_week" (of_Z 0); truediv v (of_Z 7));
  f7 ← (v ← get opportunity "chain_id" (of_Z 1); truediv v (of_Z 10));
  f8 ← (v ← get opportunity "execution_time" (of_Z 0); truediv v (of_Z 1000));
  f9 ← get opportunity "volume_ratio" (of_Z 1);
  f10 ← (v ← get opportunity "price_spread" (of_Z 0); truediv v (of_Z 10));
  f11 ← (v ← get opportunity "liquidity_depth" (of_Z 0);
         truediv v (of_Z 1000000));
  traverse to_float32 [f0; f1; f2; f3; f4; f5; f6; f7; f8; f9; f10; f11].

Section Backend.

(** The optimizer's state, and the parts of a training step that run inside
    [torch]: the forward pass in training mode (dropout masks drawn, batch
    statistics used and the running statistics updated; it can raise), and
    [zero_grad], [backward], [clip_grad_norm_] and the AdamW step. *)
Variable Optimizer : Type.
Variable forward_train :
  MetalOptimizedNN -> Tensor -> M (Tensor * MetalOptimizedNN).
Variable optimizer_step :
  MetalOptimizedNN -> Optimizer -> Tensor -> Tensor ->
  MetalOptimizedNN * Optimizer.

(** The gradient of the output at the random probe of
    [calculate_feature_importance], averaged over the batch dimension: the
    twelve [numpy.float32] values. *)
Variable probe_gradient : MetalOptimizedNN -> list f32.

(** [scheduler] is the number of [scheduler.step()] calls so far. *)
Record ArbitrageMLEngine := {
  model : MetalOptimizedNN;
  optimizer : Optimizer;
  scheduler : nat;
  loss_history : list f64;
  validation_scores : list f64
}.

Definition set_model (e : ArbitrageMLEngine) (m : MetalOptimizedNN)
  : ArbitrageMLEngine :=
  {| model := m; optimizer := optimizer e; scheduler := scheduler e;
     loss_history := loss_history e;
     validation_scores := validation_scores e |}.

(** [ArbitrageMLEngine.train_batch]: what it returns or raises, and the
    engine afterwards. *)
Definition train_batch (e : ArbitrageMLEngine) (opportunities targets : Value)
  : M f64 * ArbitrageMLEngine :=
  let e := set_model e (train (model e)) in
  match (opps ← iter opportunities;
         feats ← traverse extract_features opps;
         batch_features ← stack feats;
         t ← tensor targets;
         batch_targets ← unsqueeze1 t;
         mret (batch_features, batch_targets)) with
  | Err exn => (Err exn, e)
  | Ok (batch_features, batch_targets) =>
      match forward_train (model e) batch_features with
      | Err exn => (Err exn, e)
      | Ok (predictions, m1) =>
          let e := set_model e m1 in
          match mse_loss predictions batch_targets with
          | Err exn => (Err exn, e)
          | Ok loss =>
              let '(m2, opt2) :=
                optimizer_step (model e) (optimizer e)
                               batch_features batch_targets in
              (Ok loss,
               {| model := m2; optimizer := opt2;
                  scheduler := S (scheduler e);
                  loss_history := loss_history e ++ [loss];
                  validation_scores := validation_scores e |})
          end
      end
  end.

(** [ArbitrageMLEngine.predict] *)
Definition predict (e : ArbitrageMLEngine) (opportunity : Value)
  : M f64 * ArbitrageMLEngine :=
  let e := set_model e (eval (model e)) in
  (features ← extract_features opportunity;
   features ← unsqueeze0 (T1 features);
   prediction ← forward_eval (model e) features;
   item prediction,
   e).

(** [ArbitrageMLEngine.batch_predict] *)
Definition batch_predict (e : ArbitrageMLEngine) (opportunities : Value)
  : M Value * ArbitrageMLEngine :=
  let e := set_model e (eval (model e)) in
  if negb (truthy opportunities) then (Ok (VList []), e)
  else
    (opps ← iter opportunities;
     feats ← traverse extract_features opps;
     batch_features ← stack feats;
     predictions ← forward_eval (model e) batch_features;
     mret (tolist (squeeze predictions)),
     e).

(** [ArbitrageMLEngine.calculate_feature_importance] *)
Definition calculate_feature_importance (e : ArbitrageMLEngine)
  : Value * ArbitrageMLEngine :=
  let e := set_model e (eval (model e)) in
  (dict (zip feature_names (map VFloat32 (probe_gradient (model e)))), e).

(** One iteration of the loop of [MLWebSocketServer.handle_client]: the
    frame is given by what [json.loads] makes of it ([None] when it does
    not parse), [now] is [datetime.now().isoformat()].  The result is the
    text passed to [websocket.send], or the exception raised. *)
Definition handle_message (e : ArbitrageMLEngine) (frame : option Value)
  (now : string) : M Value * ArbitrageMLEngine :=
  match (match frame with
         | Some data => ty ← getitem data "type"; mret (data, ty)
         | None => raise JSONDecodeError "Expecting value"
         end) with
  | Err exn => (Err exn, e)
  | Ok (data, ty) =>
      if eq_str ty "train" then
        match (opportunities ← getitem data "opportunities";
               targets ← getitem data "targets";
               mret (opportunities, targets)) with
        | Err exn => (Err exn, e)
        | Ok (opportunities, targets) =>
            let '(r, e) := train_batch e opportunities targets in
            (loss ← r;
             json_dumps (dict [("type", VStr "train_result");
                               ("loss", VFloat loss);
                               ("timestamp", VStr now)]),
             e)
        end
      else if eq_str ty "predict" then
        match getitem data "opportunity" with
        | Err exn => (Err exn, e)
        | Ok opportunity =>
            let '(r, e) := predict e opportunity in
            (score ← r;
             json_dumps
               (dict [("type", VStr "prediction");
                      ("score", VFloat score);
                      ("confidence",
                       VFloat (min2 (F64.div (SFabs score) (F64.of_Z 100))
                                    (F64.of_Z 1)));
                      ("timestamp", VStr now)]),
             e)
        end
      else if eq_str ty "batch_predict" then
        match getitem data "opportunities" with
        | Err exn => (Err exn, e)
        | Ok opportunities =>
            let '(r, e) := batch_predict e opportunities in
            (scores ← r;
             json_dumps (dict [("type", VStr "batch_prediction");
                               ("scores", scores);
                               ("timestamp", VStr now)]),
             e)
        end
      else if eq_str ty "feature_importance" then
        let '(importance, e) := calculate_feature_importance e in
        (json_dumps (dict [("type", VStr "feature_importance");
                           ("importance", importance);
                           ("timestamp", VStr now)]),
         e)
      else
        (json_dumps (dict [("type", VStr "error");
                           ("message", VStr "Unknown request type")]),
         e)
  end.

Definition error_response (exn : Exn) : Value :=
  dict [("type", VStr "error"); ("message", VStr (message exn))].

(** [MLWebSocketServer.handle_client] on the frames a client sends, in
    order: the texts sent back, the engine afterwards, and whether the
    handler is still in its loop when the frames are exhausted ([false]: it
    has left the loop through the [except] clause).  The text of the
    reply to an unknown request type is abbreviated. *)
Fixpoint handle_client (e : ArbitrageMLEngine)
  (frames : list (option Value * string))
  : list Value * ArbitrageMLEngine * bool :=
  match frames with
  | [] => ([], e, true)
  | (frame, now) :: rest =>
      match handle_message e frame now with
      | (Ok response, e') =>
          let '(sent, e'', open) := handle_client e' rest in
          (response :: sent, e'', open)
      | (Err exn, e') => ([error_response exn], e', false)
      end
  end.

End Backend.

Arguments Build_ArbitrageMLEngine {Optimizer}.
Arguments model {Optimizer}.
Arguments optimizer {Optimizer}.
Arguments scheduler {Optimizer}.
Arguments loss_history {Optimizer}.
Arguments validation_scores {Optimizer}.
Arguments set_model {Optimizer}.
Arguments train_batch {Optimizer}.
Arguments predict {Optimizer}.
Arguments batch_predict {Optimizer}.
Arguments calculate_feature_importance {Optimizer}.
Arguments handle_message {Optimizer}.
Arguments handle_client {Optimizer}.

End Engine.

(** ** The stream processor: [src/ml/arbML.py] *)

Module ArbML.
Import Py Torch.

Definition lower_char (c : ascii) : ascii :=
  let n := nat_of_ascii c in
  if (65 <=? n)%nat && (n <=? 90)%nat then ascii_of_nat (n + 32) else c.

(** [s.lower()] on ASCII text *)
Fixpoint lower (s : string) : string :=
  match s with
  | EmptyString => EmptyString
  | String c s' => String (lower_char c) (lower s')
  end.

(** [needle in hay] *)
Fixpoint contains (needle hay : string) : bool :=
  String.prefix needle hay ||
  match hay with
  | EmptyString => false
  | String _ hay' => contains needle hay'
  end.

(** [1 if 'uniswap' in v.lower() else 0] *)
Definition has_uniswap (v : Value) : M Value :=
  match v with
  | VStr s => Ok (of_Z (if contains "uniswap" (lower s) then 1 else 0))
  | _ => raise AttributeError "object has no attribute 'lower'"
  end.

(** [ArbitrageML.preprocess_opportunity]; [now_hour] is
    [datetime.now().hour] when the call is made. *)
Definition preprocess_opportunity (now_hour : Z) (opp : Value) : M (list f32) :=
  f0 ← get opp "spread" (of_Z 0);
  f1 ← get opp "grossProfit" (of_Z 0);
  f2 ← get opp "flashLoanFee" (of_Z 0);
  f3 ← get opp "gasCost" (of_Z 0);
  f4 ← get opp "netProfit" (of_Z 0);
  c5 ← get opp "chain" VNone;
  c6 ← get opp "chain" VNone;
  f7 ← (v ← get opp "dex1" (VStr ""); has_uniswap v);
  f8 ← (v ← get opp "dex2" (VStr ""); has_uniswap v);
  f9 ← truediv (of_Z now_hour) (of_Z 24);
  traverse to_float32
    [f0; f1; f2; f3; f4;
     of_Z (if eq_str c5 "ethereum" then 1 else 0);
     of_Z (if eq_str c6 "arbitrum" then 1 else 0);
     f7; f8; f9].

(** The fields of an opportunity that [preprocess_opportunity] reads. *)
Definition feature_keys : list string :=
  ["spread"; "grossProfit"; "flashLoanFee"; "gasCost"; "netProfit";
   "chain"; "dex1"; "dex2"].

(** [ArbitragePredictor]: four linear layers; [nn.Dropout(0.2)] is active
    while [training]. *)
Record ArbitragePredictor := {
  fc1 : Layer;
  fc2 : Layer;
  fc3 : Layer;
  fc4 : Layer;
  training : bool
}.

Definition set_training (m : ArbitragePredictor) (b : bool)
  : ArbitragePredictor :=
  {| fc1 := fc1 m; fc2 := fc2 m; fc3 := fc3 m; fc4 := fc4 m; training := b |}.

(** [self.dropout(x)]: in training mode the elements are multiplied by the
    mask drawn for the call, whose entries are [0] or [1/(1-p)]. *)
Definition dropout (training : bool) (mask : list (list f32)) (t : Tensor)
  : Tensor :=
  match t with
  | T2 c rows =>
      if training then T2 c (zip_with (zip_with F32.mul) rows mask) else t
  | _ => t
  end.

Definition relu_t (t : Tensor) : Tensor :=
  match t with
  | T0 x => T0 (relu x)
  | T1 v => T1 (map relu v)
  | T2 c rows => T2 c (map (map relu) rows)
  end.

(** [ArbitragePredictor.forward]; [mask1] and [mask2] are the masks the two
    dropout calls draw. *)
Definition forward (m : ArbitragePredictor) (mask1 mask2 : list (list f32))
  (x : Tensor) : M Tensor :=
  x ← eval_layer (fc1 m) x;
  let x := dropout (training m) mask1 (relu_t x) in
  x ← eval_layer (fc2 m) x;
  let x := dropout (training m) mask2 (relu_t x) in
  x ← eval_layer (fc3 m) x;
  eval_layer (fc4 m) (relu_t x).

(** The network output that [ArbitrageML.predict] computes for one
    opportunity, after [self.model.eval()]. *)
Definition predict_output (m : ArbitragePredictor) (now_hour : Z)
  (mask1 mask2 : list (list f32)) (opp : Value) : M Tensor :=
  let m := set_training m false in
  features ← preprocess_opportunity now_hour opp;
  x ← unsqueeze0 (T1 features);
  forward m mask1 mask2 x.

(** The target of one training example in [train_on_batch] *)
Definition target_of (data : Value) : M (list f32) :=
  s ← get data "success" (VBool false);
  let success := of_Z (if truthy s then 1 else 0) in
  actual_profit ← get data "actual_profit" (of_Z 0);
  net_profit ← get data "netProfit" (of_Z 1);
  n ← as_float net_profit;
  profit_ratio ← truediv actual_profit (VFloat (max2 n (F64.of_Z 1)));
  net_profit ← get data "netProfit" (of_Z 0);
  q ← truediv net_profit (of_Z 100);
  q ← as_float q;
  let priority := VFloat (min2 q (F64.of_Z 1)) in
  traverse to_float32 [success; profit_ratio; priority].

Section Backend.

(** The optimizer's state, and one optimization step of [train_on_batch] on
    an example: the forward pass in training mode, the loss, [backward] and
    the Adam step. *)
Variable Optimizer : Type.
Variable adam_step :
  ArbitragePredictor -> Optimizer -> list f32 -> list f32 ->
  ArbitragePredictor * Optimizer.

(** [recommend_action] as far as [process_stream] depends on it: whether it
    returns or raises ([recommends] below, once [torch.sigmoid] and the
    sort are given). *)
Variable recommend_action : ArbitragePredictor -> Z -> Value -> M unit.

Record ArbitrageML := {
  model : ArbitragePredictor;
  optimizer : Optimizer;
  data_buffer : list Value
}.

Definition init (m : ArbitragePredictor) (o : Optimizer) : ArbitrageML :=
  {| model := m; optimizer := o; data_buffer := [] |}.

(** The loop of [train_on_batch]: an exception leaves the steps already
    taken in place. *)
Fixpoint train_loop (now_hour : Z) (m : ArbitragePredictor) (o : Optimizer)
  (batch_data : list Value) : M unit * ArbitragePredictor * Optimizer :=
  match batch_data with
  | [] => (Ok tt, m, o)
  | data :: rest =>
      match (features ← preprocess_opportunity now_hour data;
             target ← target_of data;
             mret (features, target)) with
      | Err exn => (Err exn, m, o)
      | Ok (features, target) =>
          let '(m', o') := adam_step m o features target in
          train_loop now_hour m' o' rest
      end
  end.

(** [ArbitrageML.train_on_batch] *)
Definition train_on_batch (now_hour : Z) (ml : ArbitrageML)
  (batch_data : list Value) : M unit * ArbitrageML :=
  if (length batch_data <? 10)%nat then (Ok tt, ml)
  else
    let '(r, m, o) :=
      train_loop now_hour (set_training (model ml) true) (optimizer ml)
                 batch_data in
    (r, {| model := m; optimizer := o; data_buffer := data_buffer ml |}).

(** [l[-n:]] *)
Definition last_n {A} (n : nat) (l : list A) : list A :=
  drop (length l - n) l.

(** [opportunities[:5]] *)
Definition first5 (opportunities : Value) : M (list Value) :=
  match opportunities with
  | VList l => Ok (take 5 l)
  | VStr s => Ok (take 5 (chars s))
  | _ => raise TypeError "object is not subscriptable by a slice"
  end.

(** The body of the loop of [process_stream] for one line: [line] is what
    [json.loads] makes of it ([None] when it does not parse).  The result is
    the state afterwards and the batch [train_on_batch] was called with, if
    it was called.  Every exception is caught at the end of the body, with
    the effects before it left in place. *)
Definition process_line (ml : ArbitrageML) (line : option Value)
  (now_hour : Z) : ArbitrageML * option (list Value) :=
  match line with
  | None => (ml, None)
  | Some opportunities =>
      if truthy opportunities then
        let ml :=
          {| model := set_training (model ml) false;
             optimizer := optimizer ml;
             data_buffer := data_buffer ml |} in
        match recommend_action (model ml) now_hour opportunities with
        | Err _ => (ml, None)
        | Ok _ =>
            match first5 opportunities with
            | Err _ => (ml, None)
            | Ok new =>
                let ml :=
                  {| model := model ml; optimizer := optimizer ml;
                     data_buffer := data_buffer ml ++ new |} in
                if (50 <=? length (data_buffer ml))%nat then
                  let batch := last_n 50 (data_buffer ml) in
                  match train_on_batch now_hour ml batch with
                  | (Err _, ml) => (ml, Some batch)
                  | (Ok _, ml) =>
                      ({| model := model ml; optimizer := optimizer ml;
                          data_buffer := last_n 100 (data_buffer ml) |},
                       Some batch)
                  end
                else (ml, None)
            end
        end
      else (ml, None)
  end.

(** [ArbitrageML.process_stream] on the lines of the input: the state at
    the end and the calls of [train_on_batch], in order. *)
Fixpoint process_stream (ml : ArbitrageML) (lines : list (option Value * Z))
  : ArbitrageML * list (list Value) :=
  match lines with
  | [] => (ml, [])
  | (line, now_hour) :: rest =>
      let '(ml', call) := process_line ml line now_hour in
      let '(ml'', calls) := process_stream ml' rest in
      (ml'', match call with Some b => b :: calls | None => calls end)
  end.

End Backend.

Arguments Build_ArbitrageML {Optimizer}.
Arguments model {Optimizer}.
Arguments optimizer {Optimizer}.
Arguments data_buffer {Optimizer}.
Arguments init {Optimizer}.
Arguments train_loop {Optimizer}.
Arguments train_on_batch {Optimizer}.
Arguments process_line {Optimizer}.
Arguments process_stream {Optimizer}.


(** An example on which a training step cannot raise. *)
Definition trainable (x : Value) : Prop :=
  forall now_hour,
    is_ok (preprocess_opportunity now_hour x) = true /\
    is_ok (target_of x) = true.

(** One entry of the list [ArbitrageML.predict] returns. *)
Record Prediction := {
  opportunity : Value;
  success_probability : f64;
  expected_profit : f64;
  priority_score : f64
}.

(** What [recommend_action] returns when it does not return [None]; the
    texts of an [EXECUTE] recommendation are represented by the values they
    are formatted from. *)
Inductive Recommendation :=
| EXECUTE (chain dex1 dex2 token0 token1 : Value)
          (expected_profit success_probability priority_score : f64)
| WAIT.

(** [output[i, j]] *)
Definition index2 (output : Tensor) (i j : nat) : M f32 :=
  match output with
  | T2 _ rows =>
      match rows !! i with
      | Some row =>
          match row !! j with
          | Some x => Ok x
          | None => raise IndexError "index is out of bounds for dimension 1"
          end
      | None => raise IndexError "index is out of bounds for dimension 0"
      end
  | _ => raise IndexError "too many indices for tensor"
  end.

Section Inference.

(** What runs inside [torch] and the interpreter: [torch.sigmoid] on a
    [float32] scalar, and [predictions.sort(key=lambda x:
    x['priority_score'], reverse=True)]. *)
Variable sigmoid : f32 -> f32.
Variable sort_by_priority : list Prediction -> list Prediction.

(** The body of the loop of [ArbitrageML.predict] for one opportunity,
    after [self.model.eval()]. *)
Definition predict_one (m : ArbitragePredictor) (now_hour : Z) (opp : Value)
  : M Prediction :=
  output ← predict_output m now_hour [] [] opp;
  o0 ← index2 output 0 0;
  let success_prob := sigmoid o0 in
  o1 ← index2 output 0 1;
  let profit_multiplier := relu o1 in
  o2 ← index2 output 0 2;
  let priority := sigmoid o2 in
  net_profit ← getitem opp "netProfit";
  n ← as_float net_profit;
  mret {| opportunity := opp;
          success_probability := success_prob;
          expected_profit := F64.mul n profit_multiplier;
          priority_score := F64.mul priority (F64.of_Z 100) |}.

(** [ArbitrageML.predict] *)
Definition predict (m : ArbitragePredictor) (now_hour : Z)
  (opportunities : Value) : M (list Prediction) :=
  opps ← iter opportunities;
  predictions ← traverse (predict_one m now_hour) opps;
  mret (sort_by_priority predictions).

(** [ArbitrageML.recommend_action] *)
Definition recommend_action (m : ArbitragePredictor) (now_hour : Z)
  (opportunities : Value) : M (option Recommendation) :=
  if negb (truthy opportunities) then Ok None
  else
    predictions ← predict m now_hour opportunities;
    match predictions with
    | top :: _ =>
        if F64.ltb (F64.of_Z 50) (priority_score top) then
          let opp := opportunity top in
          chain ← getitem opp "chain";
          dex1 ← getitem opp "dex1";
          dex2 ← getitem opp "dex2";
          token0 ← getitem opp "token0";
          token1 ← getitem opp "token1";
          mret (Some (EXECUTE chain dex1 dex2 token0 token1
                              (expected_profit top)
                              (success_probability top)
                              (priority_score top)))
        else Ok (Some WAIT)
    | [] => Ok (Some WAIT)
    end.

(** [recommend_action] as [process_stream] depends on it: the
    recommendation is printed and dropped, so what is left is whether the
    call returns or raises. *)
Definition recommends (m : ArbitragePredictor) (now_hour : Z)
  (opportunities : Value) : M unit :=
  _ ← recommend_action m now_hour opportunities; mret tt.

End Inference.

End ArbML.

(** ** The scenario of the specification's testable properties *)

Module Scenario.
Import Client.

(** An opportunity with [initial_amount = 5000], [roi_percentage = 2.5],
    gas cost [50], a path of length 2, on Polygon. *)
Definition matches (opp : ArbitrageOpportunity) : Prop :=
  to_f64 (initial_amount opp) = Some (F64.of_Z 5000) /\
  roi_percentage opp = F64.lit 5 2 /\
  to_f64 (total_gas_cost opp) = Some (F64.of_Z 50) /\
  length (path opp) = 2%nat /\
  chain opp = Polygon.

(** Such an opportunity, with the given [profit_usd]. *)
Definition opportunity (profit : f64) : ArbitrageOpportunity :=
  {| initial_amount := Some (F64.of_Z 5000);
     roi_percentage := F64.lit 5 2;
     path := ["WMATIC"; "USDC"];
     total_gas_cost := Some (F64.of_Z 50);
     flash_loan_fee := None;
     timestamp := 0;
     chain := Polygon;
     execution_time_ms := 0;
     profit_usd := profit |}.

(** A network on which every handshake fails: the server is down. *)
Definition server_down : Net :=
  {| connect_async := None; ws_send := false; ws_next := None |}.

(** A network on which the send on an open stream fails. *)
Definition send_fails : Net :=
  {| connect_async := Some 1%nat; ws_send := false; ws_next := None |}.

(** A client holding the stream of its first handshake. *)
Definition connected : MLClient :=
  {| ws_url := "ws://127.0.0.1:8765"; connection := Some 0%nat |}.

End Scenario.

(** ** The feature contract, in the specification's words *)

Module FeatureSpec.

(** The twelve fields in their fixed order, each with the default of an
    absent field and its scale divisor ([None]: the value is taken as it
    is, a scale of one). *)
Definition feature_table : list (string * Z * option Z) :=
  [("initial_amount", 0, Some 10000);
   ("roi_percentage", 0, Some 100);
   ("path_length", 1, Some 5);
   ("gas_cost", 0, Some 1000);
   ("flash_loan_fee", 0, Some 100);
   ("hour", 0, Some 24);
   ("day_of_week", 0, Some 7);
   ("chain_id", 1, Some 10);
   ("execution_time", 0, Some 1000);
   ("volume_ratio", 1, None);
   ("price_spread", 0, Some 10);
   ("liquidity_depth", 0, Some 1000000)].

Definition scaled (x : f64) (scale : option Z) : f64 :=
  match scale with
  | Some k => F64.div x (F64.of_Z k)
  | None => x
  end.

(** [encode]: every field, or its default, divided by its scale and stored
    as a [float32]. *)
Definition encode (r : gmap string f64) : list f32 :=
  map (fun '(name, d, scale) =>
         F32.round (scaled (default (F64.of_Z d) (r !! name)) scale))
      feature_table.

(** An opportunity record as the dictionary the server receives. *)
Definition to_dict (r : gmap string f64) : Py.Value :=
  Py.VDict (Py.VFloat <$> r).

End FeatureSpec.

(** ** A small engine to run the definitions on *)

Module Examples.
Import Py Torch.

(** A network with no hidden layer: one output, the sum of the twelve
    features. *)
Definition sum_model : MetalOptimizedNN :=
  {| layers := [];
     output := Linear 12 [repeat (F32.of_Z 1) 12] [F32.zero];
     training := false |}.

(** A backend whose training-mode forward pass is the evaluation-mode one
    and whose optimizer leaves the parameters alone. *)
Definition forward_train (m : MetalOptimizedNN) (x : Tensor)
  : M (Tensor * MetalOptimizedNN) :=
  y ← forward_eval m x; mret (y, m).

Definition optimizer_step (m : MetalOptimizedNN) (o : unit) (x y : Tensor)
  : MetalOptimizedNN * unit := (m, o).

Definition probe_gradient (m : MetalOptimizedNN) : list f32 :=
  repeat (F32.of_Z 1) 12.

Definition engine : Engine.ArbitrageMLEngine unit :=
  {| Engine.model := sum_model;
     Engine.optimizer := tt;
     Engine.scheduler := 0;
     Engine.loss_history := [];
     Engine.validation_scores := [] |}.

(** The opportunity record with no field set. *)
Definition empty_opportunity : Value := VDict ∅.

(** Requests of the four kinds. *)
Definition predict_request (opportunity : Value) : Value :=
  dict [("type", VStr "predict"); ("opportunity", opportunity)].

Definition batch_predict_request (opportunities : list Value) : Value :=
  dict [("type", VStr "batch_predict"); ("opportunities", VList opportunities)].

Definition train_request (opportunities : list Value) (targets : list f64)
  : Value :=
  dict [("type", VStr "train");
        ("opportunities", VList opportunities);
        ("targets", VList (map VFloat targets))].

(** An [ArbitragePredictor] whose output is the tenth feature, the time of
    day. *)
Definition hour_model : ArbML.ArbitragePredictor :=
  {| ArbML.fc1 :=
       Linear 10 [repeat F32.zero 9 ++ [F32.of_Z 1]] [F32.zero];
     ArbML.fc2 := Linear 1 [[F32.of_Z 1]] [F32.zero];
     ArbML.fc3 := Linear 1 [[F32.of_Z 1]] [F32.zero];
     ArbML.fc4 := Linear 1 [[F32.of_Z 1]] [F32.zero];
     ArbML.training := false |}.

(** [nn.Linear(in_features, out_features)] with every parameter zero *)
Definition zero_linear (in_features out_features : nat) : Layer :=
  Linear in_features (repeat (repeat F32.zero in_features) out_features)
         (repeat F32.zero out_features).

(** [ArbitragePredictor()] with every parameter zero: its output is
    [[0, 0, 0]] for every finite encoding. *)
Definition wait_model : ArbML.ArbitragePredictor :=
  {| ArbML.fc1 := zero_linear 10 128;
     ArbML.fc2 := zero_linear 128 64;
     ArbML.fc3 := zero_linear 64 32;
     ArbML.fc4 := zero_linear 32 3;
     ArbML.training := false |}.

(** A backend for the stream processor.  The Adam step leaves the
    parameters alone.  The logistic function is given where its [float32]
    value is exact: [1/2] at zero, [0] and [1] at the infinities, NaN at
    NaN; at the other arguments, which [wait_model] never produces, it is
    replaced by a step. *)
Definition adam_step (m : ArbML.ArbitragePredictor) (o : unit)
  (features target : list f32) : ArbML.ArbitragePredictor * unit := (m, o).

Definition sigmoid (x : f32) : f32 :=
  match x with
  | S754_zero _ => IEEE.lit 24 128 1 2
  | S754_nan => S754_nan
  | S754_infinity true | S754_finite true _ _ => F32.zero
  | S754_infinity false | S754_finite false _ _ => F32.of_Z 1
  end.

(** A stable sort by descending priority score, by insertion from the
    right: entries with equal scores keep their order. *)
Fixpoint insert_by_priority (p : ArbML.Prediction)
  (l : list ArbML.Prediction) : list ArbML.Prediction :=
  match l with
  | [] => [p]
  | q :: l' =>
      if F64.ltb (ArbML.priority_score p) (ArbML.priority_score q)
      then q :: insert_by_priority p l'
      else p :: l
  end.

Definition sort_by_priority (l : list ArbML.Prediction)
  : list ArbML.Prediction :=
  foldr insert_by_priority [] l.

(** [recommend_action] on this backend, as [process_stream] calls it. *)
Definition recommend_action : ArbML.ArbitragePredictor -> Z -> Value -> M unit :=
  ArbML.recommends sigmoid sort_by_priority.

(** An opportunity with every field [recommend_action] reads. *)
Definition full_opportunity : Value :=
  dict [("spread", VFloat (F64.lit 1 2));
        ("grossProfit", VFloat (F64.of_Z 30));
        ("flashLoanFee", VFloat (F64.lit 5 2));
        ("gasCost", VFloat (F64.of_Z 15));
        ("netProfit", VFloat (F64.lit 25 2));
        ("chain", VStr "arbitrum");
        ("dex1", VStr "uniswap_v3");
        ("dex2", VStr "sushiswap");
        ("token0", VStr "WETH");
        ("token1", VStr "USDC")].


End Examples.

(** ** The client's other calls: [src/src/ml_client.py] *)

Module ClientCalls.
Import Client.

(** [MLClient::batch_predict] *)
Definition batch_predict (c : MLClient) (net : Net)
  (opps : list ArbitrageOpportunity)
  : Result (list f64) * MLClient * list Event :=
  let opp_data := map convert_opportunity opps in
  let request :=
    {| request_type := "batch_predict";
       opportunity := None;
       opportunities := Some opp_data;
       targets := None |} in
  let '(response, c', ev) := send_request c net request in
  match response with
  | Err e => (Err e, c', ev)
  | Ok response => (Ok (unwrap_or (scores response) []), c', ev)
  end.

(** [MLClient::train] *)
Definition train (c : MLClient) (net : Net) (opps : list ArbitrageOpportunity)
  : Result f64 * MLClient * list Event :=
  let opp_data := map convert_opportunity opps in
  let targets := map profit_usd opps in
  let request :=
    {| request_type := "train";
       opportunity := None;
       opportunities := Some opp_data;
       targets := Some targets |} in
  let '(response, c', ev) := send_request c net request in
  match response with
  | Err e => (Err e, c', ev)
  | Ok response => (Ok (unwrap_or (loss response) F64.zero), c', ev)
  end.

(** [MLClient::get_feature_importance] *)
Definition get_feature_importance (c : MLClient) (net : Net)
  : Result (list (string * f64)) * MLClient * list Event :=
  let request :=
    {| request_type := "feature_importance";
       opportunity := None;
       opportunities := None;
       targets := None |} in
  let '(response, c', ev) := send_request c net request in
  match response with
  | Err e => (Err e, c', ev)
  | Ok response => (Ok (unwrap_or (importance response) []), c', ev)
  end.

(** [MetalMLEngine::train_fallback] *)
Definition train_fallback (data : list ArbitrageOpportunity) : Result unit :=
  Ok tt.

(** [MetalMLEngine::train] *)
Definition engine_train (e : MetalMLEngine.t) (net : Net)
  (data : list ArbitrageOpportunity)
  : Result unit * MetalMLEngine.t * list Event :=
  let '(r, c', ev) := train (MetalMLEngine.client e) net data in
  match r with
  | Ok loss => (Ok tt, {| MetalMLEngine.client := c' |}, ev)
  | Err _ => (train_fallback data, {| MetalMLEngine.client := c' |}, ev)
  end.

(** A sequence of requests on one client, each with what the network does
    during it: the results, the client at the end and all the events. *)
Fixpoint send_requests (c : MLClient) (calls : list (Net * MLRequest))
  : list (Result MLResponse) * MLClient * list Event :=
  match calls with
  | [] => ([], c, [])
  | (net, request) :: rest =>
      let '(r, c1, ev1) := send_request c net request in
      let '(rs, c2, ev2) := send_requests c1 rest in
      (r :: rs, c2, ev1 ++ ev2)
  end.

End ClientCalls.


(** ** Frames by request type *)

Module Frames.
Import Py.

(** The value under ["type"] of a frame, when the frame parses to a
    dictionary that has one. *)
Definition request_type (frame : option Value) : option Value :=
  match frame with
  | Some data =>
      match getitem data "type" with
      | Ok ty => Some ty
      | Err _ => None
      end
  | None => None
  end.

(** Whether the handler takes the branch [data['type'] == s] for the
    frame. *)
Definition is_type (s : string) (frame : option Value) : bool :=
  match request_type frame with
  | Some ty => eq_str ty s
  | None => false
  end.

End Frames.


(** ** The wire: what one side's JSON is to the other *)

Module Wire.
Import Client Py.

(** An [f64] written by [serde_json] and read by [json.loads]: a finite
    number arrives as a [float], NaN and the infinities are written as
    [null] and arrive as [None]. *)
Definition number (x : f64) : Value :=
  if F64.is_finite x then VFloat x else VNone.

(** [OpportunityData] as the server reads it: the derived serialization
    writes the twelve fields under their names. *)
Definition opportunity_data (d : OpportunityData) : Value :=
  dict [("initial_amount", number (od_initial_amount d));
        ("roi_percentage", number (od_roi_percentage d));
        ("path_length", number (od_path_length d));
        ("gas_cost", number (od_gas_cost d));
        ("flash_loan_fee", number (od_flash_loan_fee d));
        ("hour", number (od_hour d));
        ("day_of_week", number (od_day_of_week d));
        ("chain_id", number (od_chain_id d));
        ("execution_time", number (od_execution_time d));
        ("volume_ratio", number (od_volume_ratio d));
        ("price_spread", number (od_price_spread d));
        ("liquidity_depth", number (od_liquidity_depth d))].

(** A field under [skip_serializing_if = "Option::is_none"] *)
Definition optional {A} (key : string) (f : A -> Value) (o : option A)
  : list (string * Value) :=
  match o with
  | Some a => [(key, f a)]
  | None => []
  end.

(** [MLRequest] as the server reads it; [request_type] is renamed to
    ["type"]. *)
Definition request (r : MLRequest) : Value :=
  dict ([("type", VStr (request_type r))]
        ++ optional "opportunity" opportunity_data (opportunity r)
        ++ optional "opportunities"
             (fun l => VList (map opportunity_data l)) (opportunities r)
        ++ optional "targets" (fun l => VList (map number l)) (targets r)).

Definition all_finite (d : OpportunityData) : bool :=
  forallb F64.is_finite
    [od_initial_amount d; od_roi_percentage d; od_path_length d;
     od_gas_cost d; od_flash_loan_fee d; od_hour d; od_day_of_week d;
     od_chain_id d; od_execution_time d; od_volume_ratio d;
     od_price_spread d; od_liquidity_depth d].

(** The text [json.dumps] writes for a reply is JSON that [serde_json]
    can read unless it holds [NaN] or [Infinity], which [json.dumps]
    writes for a float that is not finite. *)
Fixpoint json_valid (v : Value) : bool :=
  match v with
  | VFloat x => F64.is_finite x
  | VFloat32 _ => false
  | VList l => forallb json_valid l
  | VDict d => map_fold (fun _ x acc => json_valid x && acc) true d
  | _ => true
  end.

Definition is_f64 (v : Value) : bool :=
  match v with VFloat _ => true | _ => false end.

Definition is_f64_list (v : Value) : bool :=
  match v with VList l => forallb is_f64 l | _ => false end.

Definition is_f64_map (v : Value) : bool :=
  match v with
  | VDict d => map_fold (fun _ x acc => is_f64 x && acc) true d
  | _ => false
  end.

(** A [String] field: it must be there and be a string. *)
Definition required_string (d : gmap string Value) (key : string) : bool :=
  match d !! key with
  | Some (VStr _) => true
  | _ => false
  end.

(** An [Option<T>] field: absent or [null], or a [T]. *)
Definition optional_field (is_t : Value -> bool) (d : gmap string Value)
  (key : string) : bool :=
  match d !! key with
  | None | Some VNone => true
  | Some v => is_t v
  end.

(** Whether [serde_json::from_str::<MLResponse>] accepts the text of a
    reply that is a JSON object: the derived deserialization needs
    ["type"] and ["timestamp"], takes the five optional fields when they
    have their type, and ignores every other key. *)
Definition deserializes (d : gmap string Value) : bool :=
  json_valid (VDict d) &&
  required_string d "type" &&
  optional_field is_f64 d "score" &&
  optional_field is_f64_list d "scores" &&
  optional_field is_f64 d "confidence" &&
  optional_field is_f64 d "loss" &&
  optional_field is_f64_map d "importance" &&
  required_string d "timestamp".

End Wire.


(** ** The execution predictor: [src/ml-optimizer/model.py] *)

Module MevOptimizer.
Import Py Torch.

(** [ArbitrageOptimizer]: the layers of [self.network]; a module is in
    training mode from its construction on, and nothing in the file
    calls [eval()]. *)
Record ArbitrageOptimizer := {
  network : list Layer;
  training : bool
}.

(** [ArbitrageOptimizer.__init__], given the initial weights *)
Definition init (input_dim hidden_dim : nat)
  (w1 : list (list f32)) (b1 : list f32)
  (w2 : list (list f32)) (b2 : list f32)
  (w3 : list (list f32)) (b3 : list f32) : ArbitrageOptimizer :=
  {| network := [Linear input_dim w1 b1; ReLU; Dropout (IEEE.lit 24 128 2 10);
                 Linear hidden_dim w2 b2; ReLU; Linear 64 w3 b3];
     training := true |}.

(** A layer applied to a tensor of rank 1; [mask] is what the dropout
    draws. *)
Definition apply_layer (training : bool) (mask : list f32) (l : Layer)
  (x : list f32) : M (list f32) :=
  match l with
  | Dropout _ => Ok (if training then zip_with F32.mul x mask else x)
  | _ =>
      if accepts l (length x) then Ok (eval_row l x)
      else raise RuntimeError "shapes cannot be multiplied"
  end.

(** [ArbitrageOptimizer.forward] *)
Definition forward (m : ArbitrageOptimizer) (mask : list f32) (x : Tensor)
  : M (list f32) :=
  match x with
  | T1 v =>
      foldl (fun acc layer => v ← acc; apply_layer (training m) mask layer v)
            (Ok v) (network m)
  | _ => raise RuntimeError "expected a tensor of rank 1"
  end.

Section Modulo.

(** [x % y] on floats, for a divisor that is not zero. *)
Variable float_mod : f64 -> f64 -> f64.

(** [v % k] for an integer constant [k] that is not zero; a value that is
    not a number makes the expression, or the tensor built from its
    result, raise. *)
Definition mod_const (v : Value) (k : Z) : M Value :=
  x ← as_float v; mret (VFloat (float_mod x (F64.of_Z k))).

(** [ArbitrageOptimizer.features_to_tensor] *)
Definition features_to_tensor (features : Value) : M Tensor :=
  f0 ← getitem features "spread_percent";
  f1 ← getitem features "volume_usd";
  f2 ← getitem features "gas_price_gwei";
  f3 ← (b ← getitem features "block_number"; mod_const b 1000);
  f4 ← getitem features "mempool_density";
  f5 ← getitem features "volatility_1h";
  f6 ← getitem features "dex_liquidity";
  tensor (VList [f0; f1; f2; f3; f4; f5; f6]).

(** The output of the network in [predict_opportunity], before the
    sigmoids are taken. *)
Definition predict_output (m : ArbitrageOptimizer) (mask : list f32)
  (features : Value) : M (list f32) :=
  x ← features_to_tensor features;
  forward m mask x.

End Modulo.
End MevOptimizer.


(** * Properties *)

(** Two dictionaries that agree on a list of keys: [split_Forall] turns the
    hypothesis into one equation per key, [rewrite_lookups] uses them. *)
Ltac split_Forall H :=
  repeat match type of H with
         | Forall _ (_ :: _) => apply Forall_cons in H as [? H]
         end.

Ltac rewrite_lookups :=
  repeat match goal with
         | Heq : _ !! _ = _ !! _ |- _ => rewrite Heq; clear Heq
         end.

(** ** Comparison of IEEE 754 numbers *)

Lemma SFcompare_antisym (a b : spec_float) (c : comparison) :
  SFcompare a b = Some c -> SFcompare b a = Some (CompOpp c).
Proof.
  destruct a as [sa|sa| |sa ma ea], b as [sb|sb| |sb mb eb]; simpl;
    try discriminate;
    try (intros [= <-]; try destruct sa; try destruct sb; reflexivity).
  intros [= <-]. f_equal.
  destruct sa, sb; try reflexivity;
    rewrite (Z.compare_antisym ea eb);
    destruct (ea ?= eb); simpl; try reflexivity.
  - f_equal. symmetry. exact (Pos.compare_cont_antisym ma mb Eq).
  - symmetry. exact (Pos.compare_cont_antisym ma mb Eq).
Qed.

Lemma SFcompare_defined (a b : spec_float) :
  IEEE.is_nan a = false -> IEEE.is_nan b = false ->
  exists c, SFcompare a b = Some c.
Proof. destruct a, b; simpl; try discriminate; eauto. Qed.

Lemma SFltb_false_SFleb (a b : spec_float) :
  IEEE.is_nan a = false -> IEEE.is_nan b = false ->
  SFltb a b = false -> SFleb b a = true.
Proof.
  intros Ha Hb. destruct (SFcompare_defined a b Ha Hb) as [c Hc].
  unfold SFltb, SFleb. rewrite (SFcompare_antisym _ _ _ Hc), Hc.
  destruct c; simpl; congruence.
Qed.

Lemma SFleb_not_nan (a b : spec_float) :
  SFleb a b = true -> IEEE.is_nan a = false /\ IEEE.is_nan b = false.
Proof. destruct a, b; simpl; try discriminate; auto. Qed.

(** ** The heuristic and the fallback: [MetalMLEngine] *)

Module ClientProps.
Import Client MetalMLEngine.

(** The final clamp [score.max(0.0).min(100.0)] lands in [[0, 100]] for
    every score, NaN and the infinities included. *)
Lemma clamp_bounds (x : f64) :
  let y := F64.min (F64.max x F64.zero) (F64.of_Z 100) in
  F64.leb F64.zero y = true /\ F64.leb y (F64.of_Z 100) = true.
Proof.
  cbv zeta. unfold F64.max.
  destruct (F64.is_nan x) eqn:Hx; [vm_compute; auto|].
  change (F64.is_nan F64.zero) with false. cbv iota.
  destruct (F64.ltb x F64.zero) eqn:Hlt; [vm_compute; auto|].
  unfold F64.min. rewrite Hx.
  change (F64.is_nan (F64.of_Z 100)) with false. cbv iota.
  destruct (F64.ltb (F64.of_Z 100) x) eqn:H100; [vm_compute; auto|].
  split; apply SFltb_false_SFleb; auto.
Qed.

Lemma predict_fallback_bounds (opp : ArbitrageOpportunity) :
  F64.leb F64.zero (predict_fallback opp) = true /\
  F64.leb (predict_fallback opp) (F64.of_Z 100) = true.
Proof. unfold predict_fallback. apply clamp_bounds. Qed.

(** A NaN return on investment gives the score zero: every sum is NaN and
    [NaN.max(0.0)] is [0.0]. *)
Example predict_fallback_nan :
  predict_fallback
    {| initial_amount := None; roi_percentage := S754_nan; path := [];
       total_gas_cost := None; flash_loan_fee := None; timestamp := 0;
       chain := Ethereum; execution_time_ms := 0;
       profit_usd := F64.of_Z 10 |}
  = F64.zero.
Proof. vm_compute. reflexivity. Qed.

(** 1 January 2024, 13:30 UTC, was a Monday. *)
Example timestamp_fields :
  hour 1704115800 = 13 /\ num_days_from_monday 1704115800 = 0.
Proof. split; reflexivity. Qed.

(** The causes of a failed request: the handshake, the send, the read, a
    frame that is not text, a text that does not deserialize, or the end of
    the stream. *)
Lemma send_request_failure (c : MLClient) (net : Net) (request : MLRequest)
  (err : Error) :
  (send_request c net request).1.1 = Err err ->
  (connection c = None /\ connect_async net = None /\ err = ConnectError) \/
  (ws_send net = false /\ err = SendError) \/
  (ws_next net = Some (Err err)) \/
  (ws_next net = Some (Ok (Text None)) /\ err = JsonError) \/
  ((exists m, ws_next net = Some (Ok m) /\ forall t, m <> Text t) /\
   err = UnexpectedMessageType) \/
  (ws_next net = None /\ err = NoConnectionAvailable).
Proof.
  unfold send_request, connect.
  destruct c as [url [ws|]]; simpl;
    [|destruct (connect_async net) as [ws|]; simpl; [|intros [= <-]; auto]];
    (destruct (ws_send net); simpl; [|intros [= <-]; auto]);
    destruct (ws_next net) as [[[[r|]| | | |]|e]|]; simpl;
      try discriminate; intros [= <-]; eauto 10;
      do 4 right; left;
      (split; [eexists; split; [reflexivity|discriminate]|reflexivity]).
Qed.

(** C1.  Whenever the remote predict call fails, for whatever reason,
    [MetalMLEngine::predict] still returns a score: the one of the local
    heuristic [predict_fallback], which lies in [[0, 100]] (and so is not
    NaN).  The failure is not passed on: the engine's [predict] returns a
    plain [f64]. *)
Theorem predict_falls_back_on_failure
  (e : MetalMLEngine.t) (net : Net) (opp : ArbitrageOpportunity) (err : Error) :
  (Client.predict (client e) net opp).1.1 = Err err ->
  let score := (MetalMLEngine.predict e net opp).1.1 in
  score = predict_fallback opp /\
  F64.leb F64.zero score = true /\
  F64.leb score (F64.of_Z 100) = true.
Proof.
  intros H. cbv zeta. unfold MetalMLEngine.predict.
  destruct (Client.predict (client e) net opp) as [[r c'] ev].
  simpl in H. subst r. simpl.
  split; [reflexivity|apply predict_fallback_bounds].
Qed.

Lemma predict_falls_back_on_failure_witness :
  let e := MetalMLEngine.new in
  let opp := Scenario.opportunity (F64.of_Z 125) in
  (Client.predict (client e) Scenario.server_down opp).1.1 = Err ConnectError /\
  (MetalMLEngine.predict e Scenario.server_down opp).1.1 = predict_fallback opp /\
  F64.leb F64.zero (MetalMLEngine.predict e Scenario.server_down opp).1.1 = true /\
  F64.leb (MetalMLEngine.predict e Scenario.server_down opp).1.1 (F64.of_Z 100)
    = true.
Proof.
  split; [reflexivity|].
  apply (predict_falls_back_on_failure MetalMLEngine.new Scenario.server_down
           (Scenario.opportunity (F64.of_Z 125)) ConnectError).
  reflexivity.
Defined.

(** With the server down, the call that finds no connection stored fails
    at the handshake and the heuristic answers. *)
Lemma server_down_falls_back (e : MetalMLEngine.t) (net : Net)
  (opp : ArbitrageOpportunity) :
  connection (client e) = None -> connect_async net = None ->
  (MetalMLEngine.predict e net opp).1.1 = predict_fallback opp.
Proof.
  intros Hc Hn.
  unfold MetalMLEngine.predict, Client.predict, send_request, connect.
  rewrite Hc, Hn. reflexivity.
Qed.

(** The scenario's opportunity with [profit_usd = 125 = 5000 * 0.025], the
    server down: the score is 37.75, not 45.35. *)
Lemma scenario_score_is_not_45_35 :
  let opp := Scenario.opportunity (F64.of_Z 125) in
  let score :=
    (MetalMLEngine.predict MetalMLEngine.new Scenario.server_down opp).1.1 in
  Scenario.matches opp /\
  score = predict_fallback opp /\
  score = F64.lit 3775 100 /\
  score <> F64.lit 4535 100.
Proof.
  split; [repeat split|]. split; [reflexivity|].
  split; [vm_compute; reflexivity|vm_compute; discriminate].
Qed.

(** C2, amended.  For an opportunity with [initial_amount = 5000],
    [roi_percentage = 2.5], gas cost 50 and a path of length 2 on Polygon,
    with the server down, [predict] returns the heuristic score, in which
    the gas cost is divided by [profit_usd.max(1.0)], a field of the
    record, not by [initial_amount * roi]: the score is
    [37.75 = 0.75 + 12 + 15 + 10] when [profit_usd = 125], and it is
    [45.35 = 0.75 + 19.6 + 15 + 10] when [profit_usd = 2500]. *)
Theorem scenario_score (e : MetalMLEngine.t) (net : Net)
  (opp : ArbitrageOpportunity) :
  connection (client e) = None -> connect_async net = None ->
  Scenario.matches opp ->
  let score := (MetalMLEngine.predict e net opp).1.1 in
  score = predict_fallback opp /\
  (profit_usd opp = F64.of_Z 125 -> score = F64.lit 3775 100) /\
  (profit_usd opp = F64.of_Z 2500 -> score = F64.lit 4535 100).
Proof.
  intros Hc Hn Hm. cbv zeta.
  rewrite (server_down_falls_back e net opp Hc Hn).
  split; [reflexivity|].
  destruct opp as [amount roi p gas fee ts ch ms profit].
  unfold Scenario.matches, to_f64 in Hm; simpl in Hm.
  destruct Hm as (_ & -> & -> & Hlen & ->).
  destruct p as [|a [|b [|c p]]]; try discriminate Hlen.
  simpl. split; intros ->; vm_compute; reflexivity.
Qed.

Lemma scenario_score_witness :
  let e := MetalMLEngine.new in
  let net := Scenario.server_down in
  let opp := Scenario.opportunity (F64.of_Z 125) in
  connection (client e) = None /\ connect_async net = None /\
  Scenario.matches opp /\
  (MetalMLEngine.predict e net opp).1.1 = predict_fallback opp /\
  (profit_usd opp = F64.of_Z 125 ->
   (MetalMLEngine.predict e net opp).1.1 = F64.lit 3775 100) /\
  (profit_usd opp = F64.of_Z 2500 ->
   (MetalMLEngine.predict e net opp).1.1 = F64.lit 4535 100).
Proof.
  split; [reflexivity|]. split; [reflexivity|]. split; [repeat split|].
  apply (scenario_score MetalMLEngine.new Scenario.server_down
           (Scenario.opportunity (F64.of_Z 125)));
    [reflexivity|reflexivity|repeat split].
Defined.

(** A handshake is attempted exactly when no connection is stored. *)
Lemma send_request_connects (c : MLClient) (net : Net) (request : MLRequest) :
  In EvConnect (send_request c net request).2 <-> connection c = None.
Proof.
  unfold send_request, connect.
  destruct c as [url [ws|]]; simpl.
  - split; [|discriminate].
    destruct (ws_send net); simpl;
      [destruct (ws_next net) as [[[[r|]| | | |]|e]|]|]; simpl;
      intros H; repeat (destruct H as [H|H]; try discriminate H); contradiction.
  - split; [reflexivity|intros _].
    destruct (connect_async net) as [ws|]; simpl; [|auto].
    destruct (ws_send net); simpl;
      [destruct (ws_next net) as [[[[r|]| | | |]|e]|]|]; simpl; auto.
Qed.

(** The stored connection is only ever set, by a successful handshake: a
    request on a stored connection leaves the client as it is, whatever
    happens to the request. *)
Lemma send_request_keeps_connection (c : MLClient) (net : Net)
  (request : MLRequest) (ws : WebSocketStream) :
  connection c = Some ws ->
  (send_request c net request).1.2 = c /\
  head (send_request c net request).2 = Some (EvSend ws).
Proof.
  unfold send_request.
  destruct c as [url [ws'|]]; simpl; [intros [= ->]|discriminate].
  destruct (ws_send net); simpl;
    [destruct (ws_next net) as [[[[r|]| | | |]|e]|]|]; simpl; auto.
Qed.

(** After a failed send on the stored stream, the stream is still stored,
    and the next call sends on it without a handshake. *)
Lemma failed_send_keeps_connection :
  let opp := Scenario.opportunity (F64.of_Z 125) in
  let '(r, c', _) := Client.predict Scenario.connected Scenario.send_fails opp in
  r = Err SendError /\
  connection c' = Some 0%nat /\
  connection c' <> None /\
  (Client.predict c' Scenario.send_fails opp).2 = [EvSend 0%nat] /\
  ~ In EvConnect (Client.predict c' Scenario.send_fails opp).2.
Proof.
  simpl. repeat split; try discriminate.
  intros [H|[]]. discriminate H.
Qed.

(** The engine's [predict] in terms of the request it sends. *)
Lemma engine_predict_request (e : MetalMLEngine.t) (net : Net)
  (opp : ArbitrageOpportunity) :
  let sent :=
    send_request (client e) net
      {| request_type := "predict";
         opportunity := Some (convert_opportunity opp);
         opportunities := None; targets := None |} in
  (MetalMLEngine.predict e net opp).2 = sent.2 /\
  client (MetalMLEngine.predict e net opp).1.2 = sent.1.2 /\
  forall err, (Client.predict (client e) net opp).1.1 = Err err ->
              (MetalMLEngine.predict e net opp).1.1 = predict_fallback opp.
Proof.
  unfold MetalMLEngine.predict, Client.predict.
  destruct (send_request _ _ _) as [[[r|x] c'] ev']; simpl; auto.
  repeat split. discriminate.
Qed.

(** C4, amended.  When a call on a stored connection fails (the send or
    the read fails, or the reply is malformed), that call falls back to the
    heuristic, and the client is left as it was: the connection stays
    stored.  The next call makes no handshake; it sends on the same
    stream.  (A handshake is made only by a call that finds no connection
    stored.) *)
Theorem failure_keeps_connection
  (e : MetalMLEngine.t) (net : Net) (opp : ArbitrageOpportunity)
  (ws : WebSocketStream) (err : Error) :
  connection (client e) = Some ws ->
  (Client.predict (client e) net opp).1.1 = Err err ->
  let '(score, e', ev) := MetalMLEngine.predict e net opp in
  score = predict_fallback opp /\
  e' = e /\
  ~ In EvConnect ev /\
  forall net2 opp2,
    ~ In EvConnect (MetalMLEngine.predict e' net2 opp2).2 /\
    head (MetalMLEngine.predict e' net2 opp2).2 = Some (EvSend ws).
Proof.
  intros Hc Herr.
  assert (Hno : forall net' opp',
    ~ In EvConnect (MetalMLEngine.predict e net' opp').2 /\
    head (MetalMLEngine.predict e net' opp').2 = Some (EvSend ws)).
  { intros net' opp'.
    destruct (engine_predict_request e net' opp') as (-> & _ & _). split.
    - rewrite send_request_connects, Hc. discriminate.
    - apply send_request_keeps_connection, Hc. }
  destruct (engine_predict_request e net opp) as (Hev & Hcl & Hfb).
  specialize (Hfb err Herr).
  destruct (send_request_keeps_connection (client e) net
    {| request_type := "predict";
       opportunity := Some (convert_opportunity opp);
       opportunities := None; targets := None |} ws Hc) as [Hk _].
  rewrite Hk in Hcl.
  destruct (Hno net opp) as [Hn _].
  destruct (MetalMLEngine.predict e net opp) as [[score e'] ev].
  simpl in *.
  assert (e' = e) as -> by (destruct e, e'; simpl in *; congruence).
  auto.
Qed.

Lemma failure_keeps_connection_witness :
  let e := {| client := Scenario.connected |} in
  let opp := Scenario.opportunity (F64.of_Z 125) in
  connection (client e) = Some 0%nat /\
  (Client.predict (client e) Scenario.send_fails opp).1.1 = Err SendError /\
  let '(score, e', ev) := MetalMLEngine.predict e Scenario.send_fails opp in
  score = predict_fallback opp /\
  e' = e /\
  ~ In EvConnect ev /\
  forall net2 opp2,
    ~ In EvConnect (MetalMLEngine.predict e' net2 opp2).2 /\
    head (MetalMLEngine.predict e' net2 opp2).2 = Some (EvSend 0%nat).
Proof.
  split; [reflexivity|]. split; [reflexivity|].
  apply (failure_keeps_connection {| client := Scenario.connected |}
           Scenario.send_fails (Scenario.opportunity (F64.of_Z 125))
           0%nat SendError); reflexivity.
Defined.

End ClientProps.

(** ** The feature encoder: [extract_features] *)

Module EncoderProps.
Import Py Torch Engine.

Lemma get_to_dict (r : gmap string f64) (key : string) (d : f64) :
  get (FeatureSpec.to_dict r) key (VFloat d) =
  Ok (VFloat (default d (r !! key))).
Proof.
  unfold get, FeatureSpec.to_dict. rewrite lookup_fmap.
  destruct (r !! key); reflexivity.
Qed.

Lemma truediv_floats (x y : f64) :
  is_zero y = false ->
  truediv (VFloat x) (VFloat y) = Ok (VFloat (F64.div x y)).
Proof. intros H. unfold truediv. simpl. rewrite H. reflexivity. Qed.

(** C6.  [extract_features] is total on opportunity records, whatever
    subset of the fields is present: it returns the twelve numbers of the
    contract, in the contract's order, each the field (or its default
    when absent) divided by its scale constant and stored as a [float32];
    the volume ratio has scale one and is not divided.  No lookup and no
    division raises. *)
Theorem extract_features_total (r : gmap string f64) :
  extract_features (FeatureSpec.to_dict r) = Ok (FeatureSpec.encode r) /\
  length (FeatureSpec.encode r) = 12%nat /\
  map (fun f => f.1.1) FeatureSpec.feature_table = feature_names.
Proof.
  split; [|split; reflexivity].
  unfold extract_features, of_Z.
  rewrite !get_to_dict. cbn [mbind Result_bind].
  rewrite !truediv_floats by reflexivity. cbn [mbind Result_bind].
  reflexivity.
Qed.

(** An amount of 5000 and nothing else: 0.5, then the defaults, among
    them [1/5] for the path length, [1/10] for the chain and [1] for the
    volume ratio. *)
Example extract_features_amount :
  extract_features (FeatureSpec.to_dict {[ "initial_amount" := F64.of_Z 5000 ]})
  = Ok [IEEE.lit 24 128 1 2; F32.zero; IEEE.lit 24 128 1 5; F32.zero;
        F32.zero; F32.zero; F32.zero; IEEE.lit 24 128 1 10; F32.zero;
        F32.of_Z 1; F32.zero; F32.zero].
Proof. vm_compute. reflexivity. Qed.

(** A field that is not a number makes the division raise. *)
Example extract_features_string :
  extract_features (dict [("gas_cost", VStr "high")])
  = raise TypeError "unsupported operand type(s)".
Proof. vm_compute. reflexivity. Qed.

(** The encoding reads the twelve fields of the record and nothing else:
    no clock. *)
Lemma extract_features_agree (d1 d2 : gmap string Value) :
  Forall (fun key => d1 !! key = d2 !! key) feature_names ->
  extract_features (VDict d1) = extract_features (VDict d2).
Proof.
  intros H. unfold feature_names in H.
  split_Forall H. unfold extract_features, get. rewrite_lookups.
  reflexivity.
Qed.

(** So does the engine's [predict], which runs the model in evaluation
    mode. *)
Lemma predict_agree {Optimizer} (e : ArbitrageMLEngine Optimizer)
  (d1 d2 : gmap string Value) :
  Forall (fun key => d1 !! key = d2 !! key) feature_names ->
  predict e (VDict d1) = predict e (VDict d2).
Proof.
  intros H. unfold predict. now rewrite (extract_features_agree d1 d2 H).
Qed.

End EncoderProps.

(** ** The engine: [predict], [batch_predict] and [train_batch] *)

Module EngineProps.
Import Py Torch Engine.

Lemma bind_Ok_inv {E A B} (m : Result E A) (f : A -> Result E B) (b : B) :
  (m ≫= f) = Ok b -> exists a, m = Ok a /\ f a = Ok b.
Proof. destruct m as [a|e]; [eauto|discriminate]. Qed.

Lemma traverse_length {E A B} (f : A -> Result E B) (l : list A) (v : list B) :
  traverse f l = Ok v -> length v = length l.
Proof.
  revert v. induction l as [|x l IH]; simpl; intros v H.
  - injection H as <-. reflexivity.
  - apply bind_Ok_inv in H as (y & _ & H).
    apply bind_Ok_inv in H as (ys & Hys & H).
    injection H as <-. simpl. f_equal. apply IH, Hys.
Qed.

Lemma extract_features_length (opp : Value) (v : list f32) :
  extract_features opp = Ok v -> length v = 12%nat.
Proof.
  unfold extract_features. intros H.
  do 12 (apply bind_Ok_inv in H as (? & _ & H)).
  apply traverse_length in H. exact H.
Qed.

(** The evaluation-mode forward pass works row by row: on batches of one
    width it either always raises or applies one function to every row. *)
Lemma foldl_eval_layer_Err (exn : Exn) (ls : list Layer) :
  foldl (fun acc layer => x ← acc; eval_layer layer x) (Err exn) ls = Err exn.
Proof. induction ls as [|l ls IH]; simpl; auto. Qed.

Lemma eval_layers_rowwise (ls : list Layer) (c : nat) (rows : list (list f32))
  (t : Tensor) :
  foldl (fun acc layer => x ← acc; eval_layer layer x) (Ok (T2 c rows)) ls
    = Ok t ->
  exists c' f,
    t = T2 c' (map f rows) /\
    forall rows',
      foldl (fun acc layer => x ← acc; eval_layer layer x)
            (Ok (T2 c rows')) ls
      = Ok (T2 c' (map f rows')).
Proof.
  revert c rows. induction ls as [|l ls IH]; intros c rows; simpl.
  - intros [= <-]. exists c, id. split; [now rewrite map_id|].
    intros rows'. now rewrite map_id.
  - destruct (accepts l c) eqn:Hacc; simpl.
    + intros H. apply IH in H as (c' & f & -> & Hall).
      exists c', (f ∘ eval_row l). split; [now rewrite map_map|].
      intros rows'. rewrite Hall. now rewrite map_map.
    + unfold raise. rewrite foldl_eval_layer_Err. discriminate.
Qed.

Lemma forward_eval_rowwise (m : MetalOptimizedNN) (c : nat)
  (rows : list (list f32)) (t : Tensor) :
  forward_eval m (T2 c rows) = Ok t ->
  exists c' f,
    t = T2 c' (map f rows) /\
    forall rows', forward_eval m (T2 c rows') = Ok (T2 c' (map f rows')).
Proof.
  unfold forward_eval. intros H.
  apply bind_Ok_inv in H as (t1 & H1 & H).
  apply eval_layers_rowwise in H1 as (c1 & f1 & -> & Hall).
  simpl in H. destruct (accepts (output m) c1) eqn:Hacc; [|discriminate].
  injection H as <-.
  exists (features_of (output m) c1), (eval_row (output m) ∘ f1).
  split; [now rewrite map_map|].
  intros rows'. rewrite Hall. simpl. rewrite Hacc. now rewrite map_map.
Qed.

Lemma concat_singletons {A} (l : list A) : concat (map (fun x => [x]) l) = l.
Proof. induction l as [|x l IH]; simpl; congruence. Qed.

Section Backend.
Context {Optimizer : Type}.
Variable forward_train :
  MetalOptimizedNN -> Tensor -> M (Tensor * MetalOptimizedNN).
Variable optimizer_step :
  MetalOptimizedNN -> Optimizer -> Tensor -> Tensor ->
  MetalOptimizedNN * Optimizer.
Variable probe_gradient : MetalOptimizedNN -> list f32.

Implicit Types (e : ArbitrageMLEngine Optimizer) (opp : Value).

(** What a successful [predict] computes. *)
Lemma predict_Ok_inv e opp (score : f64) :
  (predict e opp).1 = Ok score ->
  exists features f,
    extract_features opp = Ok features /\
    length features = 12%nat /\
    f features = [score] /\
    forall rows,
      forward_eval (eval (model e)) (T2 12 rows) = Ok (T2 1 (map f rows)).
Proof.
  unfold predict. simpl. intros H.
  apply bind_Ok_inv in H as (features & Hf & H).
  pose proof (extract_features_length _ _ Hf) as Hlen.
  simpl in H. rewrite Hlen in H.
  apply bind_Ok_inv in H as (t & Ht & Hitem).
  apply forward_eval_rowwise in Ht as (c' & f & -> & Hall).
  exists features, f. split; [exact Hf|]. split; [exact Hlen|].
  simpl in Hitem.
  destruct c' as [|[|c']]; try discriminate Hitem.
  destruct (f features) as [|x [|y v]]; try discriminate Hitem.
  injection Hitem as ->. split; [reflexivity|exact Hall].
Qed.

(** C3, at a batch of one.  When [predict] returns [score] for an
    opportunity, [batch_predict] on the list holding that opportunity alone
    returns the bare number [score], not the one-element list: [squeeze()]
    removes both dimensions of the [(1, 1)] prediction and [tolist()] of the
    rank-0 result is a number. *)
Theorem batch_predict_single_is_scalar e opp (score : f64) :
  (predict e opp).1 = Ok score ->
  (batch_predict e (VList [opp])).1 = Ok (VFloat score) /\
  (batch_predict e (VList [opp])).1 <> Ok (VList [VFloat score]).
Proof.
  intros H. apply predict_Ok_inv in H as (features & f & Hf & Hlen & Hs & Hall).
  assert (Hb : (batch_predict e (VList [opp])).1 = Ok (VFloat score)).
  { unfold batch_predict. simpl. rewrite Hf. simpl.
    rewrite Nat.eqb_refl. simpl. rewrite Hlen, Hall. simpl.
    rewrite Hs. reflexivity. }
  split; [exact Hb|]. rewrite Hb. discriminate.
Qed.

Lemma traverse_extract_features (opps : list Value) f e (scores : list f64) :
  Forall2 (fun opp s =>
             exists features,
               extract_features opp = Ok features /\
               length features = 12%nat /\ f features = [s]) opps scores ->
  exists feats,
    traverse extract_features opps = Ok feats /\
    Forall (fun v => length v = 12%nat) feats /\
    map f feats = map (fun s => [s]) scores.
Proof.
  induction 1 as [|opp s opps scores (features & Hf & Hlen & Hs) _ IH].
  - exists []. repeat split. constructor.
  - destruct IH as (feats & Ht & Hall & Hmap).
    exists (features :: feats). simpl. rewrite Hf, Ht. simpl.
    repeat split; [constructor; auto|]. now rewrite Hs, Hmap.
Qed.

(** On a batch of two or more, [batch_predict] returns the list of the
    scores [predict] returns, in order. *)
Lemma batch_predict_many e (opps : list Value) (scores : list f64) :
  (2 <= length opps)%nat ->
  Forall2 (fun opp s => (predict e opp).1 = Ok s) opps scores ->
  (batch_predict e (VList opps)).1 = Ok (VList (map VFloat scores)).
Proof.
  intros Hlen Hall.
  destruct opps as [|o1 [|o2 opps]]; simpl in Hlen; try lia.
  inversion Hall as [|? s1 ? scores1 H1 Hall1]; subst.
  inversion Hall1 as [|? s2 ? scores2 H2 Hall2]; subst.
  destruct (predict_Ok_inv _ _ _ H1) as (ft1 & f & Hf1 & Hl1 & Hs1 & Hfw).
  assert (Hrows : Forall2 (fun opp s =>
             exists features,
               extract_features opp = Ok features /\
               length features = 12%nat /\ f features = [s])
            (o1 :: o2 :: opps) (s1 :: s2 :: scores2)).
  { eapply Forall2_impl; [exact Hall|]. intros opp s Hp.
    destruct (predict_Ok_inv _ _ _ Hp) as (ft & g & Hft & Hl & Hs & Hg).
    exists ft. repeat split; auto.
    pose proof (Hfw [ft]) as Ha. rewrite (Hg [ft]) in Ha.
    injection Ha as Ha. congruence. }
  destruct (traverse_extract_features _ f e _ Hrows)
    as (feats & Ht & Hwidth & Hmap).
  unfold batch_predict. cbn [truthy length Nat.eqb negb fst iter mbind Result_bind].
  rewrite Ht. cbn [mbind Result_bind].
  assert (Hstack : stack feats = Ok (T2 12 feats)).
  { pose proof (traverse_length _ _ _ Ht) as Hn.
    destruct feats as [|v feats]; [discriminate Hn|].
    unfold stack. inversion Hwidth as [|? ? Hv Hrest]; subst.
    rewrite Hv.
    rewrite (proj2 (forallb_forall _ _)); [reflexivity|].
    intros w Hw. apply Nat.eqb_eq.
    apply (proj1 (List.Forall_forall _ _) Hwidth), Hw. }
  rewrite Hstack. cbn [mbind Result_bind]. rewrite Hfw.
  cbn [mbind Result_bind mret Result_ret]. rewrite Hmap.
  cbn [map squeeze tolist concat app]. rewrite concat_singletons.
  reflexivity.
Qed.

(** C7, at the empty batch.  [train_batch] has no guard for an empty
    batch: [torch.stack] raises [RuntimeError] on the empty list of feature
    tensors, after [self.model.train()] has switched the model to training
    mode.  In the server the exception ends the client's handler, after one
    error reply. *)
Theorem train_batch_empty_raises e (targets : Value) :
  train_batch forward_train optimizer_step e (VList []) targets =
    (raise RuntimeError "stack expects a non-empty TensorList",
     set_model e (train (model e))) /\
  forall now rest,
    handle_client forward_train optimizer_step probe_gradient e
      ((Some (dict [("type", VStr "train");
                    ("opportunities", VList []);
                    ("targets", targets)]), now) :: rest) =
    ([error_response
        (Exception RuntimeError "stack expects a non-empty TensorList")],
     set_model e (train (model e)), false).
Proof. split; reflexivity. Qed.

(** A NaN among the targets makes the loss NaN, whatever is predicted. *)
Lemma fold_add_nan (v : list f32) : fold_left F32.add v S754_nan = S754_nan.
Proof. induction v as [|x v IH]; simpl; auto. Qed.

Lemma sum_with_nan (v : list f32) (acc : f32) :
  In S754_nan v -> fold_left F32.add v acc = S754_nan.
Proof.
  revert acc. induction v as [|x v IH]; intros acc; simpl; [contradiction|].
  intros [->|Hin]; [|apply IH, Hin].
  replace (F32.add acc S754_nan) with S754_nan by (destruct acc; reflexivity).
  apply fold_add_nan.
Qed.

Lemma squared_error_nan (p : f32) : squared_error p S754_nan = S754_nan.
Proof. destruct p; reflexivity. Qed.

Lemma mse_loss_nan_target (ps ts : list f32) :
  length ps = length ts -> In S754_nan ts ->
  mse_loss (T2 1 (map (fun x => [x]) ps)) (T2 1 (map (fun x => [x]) ts))
  = Ok S754_nan.
Proof.
  intros Hlen Hin. unfold mse_loss. rewrite !concat_singletons.
  rewrite Hlen, Nat.eqb_refl. f_equal. unfold mean.
  rewrite sum_with_nan; [reflexivity|].
  clear -Hlen Hin. revert ps Hlen.
  induction ts as [|t ts IH]; intros [|p ps] Hlen; simpl in *;
    try contradiction; try discriminate.
  destruct Hin as [->|Hin]; [left; apply squared_error_nan|].
  right. apply IH; [exact Hin|congruence].
Qed.

(** A loss that [train_batch] returns has been computed by [mse_loss]
    from the forward pass, and the step taken and recorded. *)
Lemma train_batch_Ok_inv e (opportunities targets : Value) (loss : f64) :
  (train_batch forward_train optimizer_step e opportunities targets).1
    = Ok loss ->
  let e' := (train_batch forward_train optimizer_step e opportunities targets).2 in
  loss_history e' = loss_history e ++ [loss] /\
  scheduler e' = S (scheduler e) /\
  exists batch_features batch_targets predictions m1,
    forward_train (train (model e)) batch_features = Ok (predictions, m1) /\
    mse_loss predictions batch_targets = Ok loss /\
    (model e', optimizer e') =
      optimizer_step m1 (optimizer e) batch_features batch_targets.
Proof.
  unfold train_batch. cbv zeta.
  destruct (_ ≫= _) as [[bf bt]|exn]; [|discriminate].
  cbn [model set_model].
  destruct (forward_train (train (model e)) bf) as [[preds m1]|exn] eqn:Hfw;
    [|discriminate].
  destruct (mse_loss preds bt) as [l|exn] eqn:Hloss; [|discriminate].
  cbn [model optimizer set_model].
  destruct (optimizer_step m1 (optimizer e) bf bt) as [m2 o2] eqn:Hstep.
  cbn. intros [= ->]. repeat split.
  exists bf, bt, preds, m1. auto.
Qed.

(** C8, amended.  [train_batch] makes no finiteness check.  Whenever the
    batch is prepared, the forward pass goes through and [mse_loss]
    computes a loss, whatever its value, NaN and the infinities included,
    the call returns that loss without an error, with the optimizer step
    taken on the model the forward pass left, the scheduler stepped and the
    loss appended to the loss history. *)
Theorem train_batch_records_any_loss e (opportunities targets : Value)
  (opps : list Value) (feats : list (list f32))
  (batch_features t batch_targets predictions : Tensor)
  (m1 : MetalOptimizedNN) (loss : f32) :
  iter opportunities = Ok opps ->
  traverse extract_features opps = Ok feats ->
  stack feats = Ok batch_features ->
  tensor targets = Ok t ->
  unsqueeze1 t = Ok batch_targets ->
  forward_train (train (model e)) batch_features = Ok (predictions, m1) ->
  mse_loss predictions batch_targets = Ok loss ->
  let step :=
    optimizer_step m1 (optimizer e) batch_features batch_targets in
  train_batch forward_train optimizer_step e opportunities targets =
    (Ok loss,
     {| model := step.1;
        optimizer := step.2;
        scheduler := S (scheduler e);
        loss_history := loss_history e ++ [loss];
        validation_scores := validation_scores e |}).
Proof.
  intros Hopps Hfeats Hstack Htensor Htargets Hforward Hloss. cbv zeta.
  unfold train_batch. cbv zeta.
  rewrite Hopps. cbn [mbind Result_bind]. rewrite Hfeats. cbn [mbind Result_bind].
  rewrite Hstack. cbn [mbind Result_bind]. rewrite Htensor. cbn [mbind Result_bind].
  rewrite Htargets. cbn [mbind Result_bind mret Result_ret].
  cbn [model set_model]. rewrite Hforward.
  cbn [model optimizer set_model scheduler loss_history validation_scores].
  rewrite Hloss.
  destruct (optimizer_step m1 (optimizer e) batch_features batch_targets)
    as [m2 o2].
  reflexivity.
Qed.


End Backend.

Lemma batch_predict_single_is_scalar_witness :
  (predict Examples.engine Examples.empty_opportunity).1
    = Ok (IEEE.lit 24 128 13 10) /\
  (batch_predict Examples.engine (VList [Examples.empty_opportunity])).1
    = Ok (VFloat (IEEE.lit 24 128 13 10)) /\
  (batch_predict Examples.engine (VList [Examples.empty_opportunity])).1
    <> Ok (VList [VFloat (IEEE.lit 24 128 13 10)]).
Proof.
  split; [vm_compute; reflexivity|].
  apply (batch_predict_single_is_scalar Examples.engine
           Examples.empty_opportunity).
  vm_compute. reflexivity.
Defined.

(** Two examples, one with the target [NaN]: no error, the loss [NaN] is
    returned and recorded, the scheduler has stepped. *)
Lemma nan_loss_is_recorded :
  let '(r, e') :=
    train_batch Examples.forward_train Examples.optimizer_step Examples.engine
      (VList [Examples.empty_opportunity; Examples.empty_opportunity])
      (VList [VFloat S754_nan; VFloat F64.zero]) in
  r = Ok S754_nan /\
  IEEE.is_finite S754_nan = false /\
  loss_history e' = [S754_nan] /\
  loss_history e' <> loss_history Examples.engine /\
  scheduler e' = 1%nat.
Proof. vm_compute. repeat split. discriminate. Qed.

Lemma train_batch_records_any_loss_witness :
  let opportunities :=
    VList [Examples.empty_opportunity; Examples.empty_opportunity] in
  let targets := VList [VFloat S754_nan; VFloat F64.zero] in
  let batch_targets := T2 1 [[S754_nan]; [F32.zero]] in
  let predictions := T2 1 [[IEEE.lit 24 128 13 10]; [IEEE.lit 24 128 13 10]] in
  (t ← tensor targets; unsqueeze1 t) = Ok batch_targets /\
  mse_loss predictions batch_targets = Ok S754_nan /\
  IEEE.is_finite S754_nan = false /\
  train_batch Examples.forward_train Examples.optimizer_step Examples.engine
    opportunities targets =
    (Ok S754_nan,
     {| model := train Examples.sum_model;
        optimizer := tt;
        scheduler := 1;
        loss_history := [S754_nan];
        validation_scores := [] |}).
Proof.
  cbv zeta.
  split; [vm_compute; reflexivity|]. split; [vm_compute; reflexivity|].
  split; [reflexivity|].
  eapply (train_batch_records_any_loss Examples.forward_train
            Examples.optimizer_step Examples.engine
            (VList [Examples.empty_opportunity; Examples.empty_opportunity])
            (VList [VFloat S754_nan; VFloat F64.zero])).
  - vm_compute; reflexivity.
  - vm_compute; reflexivity.
  - vm_compute; reflexivity.
  - vm_compute; reflexivity.
  - vm_compute; reflexivity.
  - vm_compute; reflexivity.
  - vm_compute; reflexivity.
Defined.


End EngineProps.

(** ** The stream processor: encoding, inference and the training buffer *)

Module ArbMLProps.
Import Py Torch ArbML.

Lemma length_last_n {A} (n : nat) (l : list A) :
  length (last_n n l) = Nat.min n (length l).
Proof. unfold last_n. rewrite length_drop. lia. Qed.



Section Backend.
Context {Optimizer : Type}.
Variable adam_step :
  ArbitragePredictor -> Optimizer -> list f32 -> list f32 ->
  ArbitragePredictor * Optimizer.
Variable recommend_action : ArbitragePredictor -> Z -> Value -> M unit.

Implicit Types (ml : ArbitrageML Optimizer) (x : Value).

Abbreviation process_line' := (process_line adam_step recommend_action).
Abbreviation process_stream' := (process_stream adam_step recommend_action).

Lemma train_loop_ok (now_hour : Z) (batch : list Value) m o :
  Forall trainable batch ->
  (train_loop adam_step now_hour m o batch).1.1 = Ok tt.
Proof.
  intros H. revert m o.
  induction H as [|x batch Hx _ IH]; intros m o; simpl; [reflexivity|].
  destruct (Hx now_hour) as [Hp Ht].
  destruct (preprocess_opportunity now_hour x); [|discriminate].
  destruct (target_of x); [|discriminate]. simpl.
  destruct (adam_step m o a a0). apply IH.
Qed.


Lemma train_on_batch_buffer (now_hour : Z) ml (batch : list Value) :
  data_buffer (train_on_batch adam_step now_hour ml batch).2 = data_buffer ml.
Proof.
  unfold train_on_batch. destruct (_ <? _)%nat; [reflexivity|].
  destruct (train_loop _ _ _ _ _) as [[r m] o]. reflexivity.
Qed.

Lemma train_on_batch_ok (now_hour : Z) ml (batch : list Value) :
  Forall trainable batch ->
  (train_on_batch adam_step now_hour ml batch).1 = Ok tt.
Proof.
  intros H. unfold train_on_batch. destruct (_ <? _)%nat; [reflexivity|].
  pose proof (train_loop_ok now_hour batch
                (set_training (model ml) true) (optimizer ml) H) as Hl.
  destruct (train_loop _ _ _ _ _) as [[r m] o]. exact Hl.
Qed.

Section Invariant.

(** A property of the model that switching its mode and a training step
    keep, such as the shapes of its layers. *)
Variable Inv : ArbitragePredictor -> Prop.
Hypothesis Inv_set_training : forall m b, Inv m -> Inv (set_training m b).
Hypothesis Inv_adam_step :
  forall m o features target, Inv m -> Inv (adam_step m o features target).1.







End Invariant.

End Backend.

(** On the example backend, [recommend_action] returns [WAIT] for the
    opportunity with every field, and raises [KeyError] for the record
    with no field, at [opp['netProfit']]. *)
Lemma recommend_action_examples :
  recommend_action Examples.sigmoid Examples.sort_by_priority
    Examples.wait_model 10 (VList [Examples.full_opportunity])
    = Ok (Some WAIT) /\
  recommend_action Examples.sigmoid Examples.sort_by_priority
    Examples.wait_model 10 (VList [Examples.empty_opportunity])
    = raise KeyError "netProfit".
Proof. split; vm_compute; reflexivity. Qed.

Lemma full_opportunity_trainable : trainable Examples.full_opportunity.
Proof. intros h. split; [|vm_compute; reflexivity].
  unfold preprocess_opportunity, Examples.full_opportunity, dict, get.
  repeat match goal with
  | |- context [ @lookup _ _ _ _ ?k (list_to_map ?l) ] =>
      let r := eval vm_compute in (@lookup string Value (gmap string Value) _ k (list_to_map l)) in
      change (@lookup string Value (gmap string Value) _ k (list_to_map l)) with r
  end.
  cbn [mbind Result_bind has_uniswap].
  unfold truediv. cbn [as_float Py.of_Z mbind Result_bind].
  change (is_zero (F64.of_Z 24)) with false. cbn iota.
  destruct (contains _ _), (contains _ _); reflexivity.
Qed.



(** *** Encoding and inference *)

Lemma dropout_eval (mask : list (list f32)) (t : Tensor) :
  dropout false mask t = t.
Proof. destruct t; reflexivity. Qed.

Lemma preprocess_agree (now_hour : Z) (d1 d2 : gmap string Value) :
  Forall (fun key => d1 !! key = d2 !! key) feature_keys ->
  preprocess_opportunity now_hour (VDict d1)
  = preprocess_opportunity now_hour (VDict d2).
Proof.
  intros H. unfold feature_keys in H.
  split_Forall H. unfold preprocess_opportunity, get. rewrite_lookups.
  reflexivity.
Qed.

(** The same record read at midnight and at noon: two encodings, and two
    outputs of the same model in evaluation mode. *)
Lemma encoding_reads_the_clock :
  preprocess_opportunity 0 Examples.empty_opportunity
    <> preprocess_opportunity 12 Examples.empty_opportunity /\
  is_ok (predict_output Examples.hour_model 0 [] [] Examples.empty_opportunity)
    = true /\
  predict_output Examples.hour_model 0 [] [] Examples.empty_opportunity
    <> predict_output Examples.hour_model 12 [] [] Examples.empty_opportunity.
Proof. vm_compute. repeat split; discriminate. Qed.

(** C5, amended.  For fixed weights, the output [ArbitrageML.predict]
    computes for an opportunity is a function of the opportunity's
    [spread], [grossProfit], [flashLoanFee], [gasCost], [netProfit],
    [chain], [dex1] and [dex2] fields and of the wall-clock hour at the time
    of the call, which is the tenth feature.  The model is put in
    evaluation mode first, so neither the dropout masks nor the mode it
    was left in matter.  Repeated calls for one record agree when they are
    made within the same clock hour. *)
Theorem inference_depends_on_fields_and_clock
  (m : ArbitragePredictor) (mode : bool) (now_hour : Z)
  (d1 d2 : gmap string Value) (mask1 mask2 mask1' mask2' : list (list f32)) :
  Forall (fun key => d1 !! key = d2 !! key) feature_keys ->
  predict_output (set_training m mode) now_hour mask1 mask2 (VDict d1)
  = predict_output m now_hour mask1' mask2' (VDict d2).
Proof.
  intros H. unfold predict_output.
  rewrite (preprocess_agree now_hour d1 d2 H).
  destruct (preprocess_opportunity now_hour (VDict d2)) as [features|exn];
    [|reflexivity].
  cbn [mbind Result_bind]. destruct (unsqueeze0 (T1 features)) as [x|exn];
    [|reflexivity].
  cbn [mbind Result_bind]. unfold forward.
  cbn [set_training fc1 fc2 fc3 fc4 training].
  destruct (eval_layer (fc1 m) x) as [x1|exn]; [|reflexivity].
  cbn [mbind Result_bind]. rewrite !dropout_eval.
  destruct (eval_layer (fc2 m) (relu_t x1)) as [x2|exn]; [|reflexivity].
  cbn [mbind Result_bind]. rewrite !dropout_eval. reflexivity.
Qed.

Lemma inference_depends_on_fields_and_clock_witness :
  let d1 : gmap string Value :=
    {[ "spread" := Py.of_Z 2; "pair" := VStr "WETH/USDC" ]} in
  let d2 : gmap string Value :=
    {[ "spread" := Py.of_Z 2; "pair" := VStr "WBTC/USDC" ]} in
  Forall (fun key => d1 !! key = d2 !! key) feature_keys /\
  predict_output (set_training Examples.hour_model true) 12
                 [[F32.zero]] [[F32.zero]] (VDict d1)
  = predict_output Examples.hour_model 12 [] [] (VDict d2).
Proof.
  assert (H : Forall (fun key =>
      ({[ "spread" := Py.of_Z 2; "pair" := VStr "WETH/USDC" ]}
         : gmap string Value) !! key
      = ({[ "spread" := Py.of_Z 2; "pair" := VStr "WBTC/USDC" ]}
           : gmap string Value) !! key) feature_keys).
  { repeat constructor. }
  split; [exact H|].
  exact (inference_depends_on_fields_and_clock Examples.hour_model true 12
           _ _ [[F32.zero]] [[F32.zero]] [] [] H).
Defined.

End ArbMLProps.

(** ** More on the client: the connection over many calls *)

Module ClientMore.
Import Client ClientCalls.

(** A request succeeds exactly when a stream is at hand (stored, or opened
    by the handshake), the send succeeds and the next frame is a text that
    deserializes; the reply is that text's. *)
Theorem send_request_ok_iff (c : MLClient) (net : Net) (request : MLRequest)
  (response : MLResponse) :
  (send_request c net request).1.1 = Ok response <->
  (connection c <> None \/ connect_async net <> None) /\
  ws_send net = true /\
  ws_next net = Some (Ok (Text (Some response))).
Proof.
  split.
  - unfold send_request, connect.
    destruct c as [url [ws|]]; simpl;
      [|destruct (connect_async net) as [ws|]; simpl; [|discriminate]];
      (destruct (ws_send net); simpl; [|discriminate]);
      (destruct (ws_next net) as [[[[r|]| | | |]|e]|]; simpl;
       try discriminate);
      intros [= <-]; repeat split; auto;
      first [left; discriminate | right; discriminate].
  - intros (Hconn & Hs & Hn). unfold send_request, connect.
    rewrite Hs, Hn. destruct c as [url [ws|]]; simpl in *; [reflexivity|].
    destruct (connect_async net); simpl; [reflexivity|].
    destruct Hconn as [H|H]; exfalso; apply H; reflexivity.
Qed.

(** A stored connection survives every sequence of requests, whatever the
    network does: the client is never changed, no handshake is made, and
    everything is sent and read on the stored stream. *)
Theorem stored_connection_is_kept (c : MLClient)
  (calls : list (Net * MLRequest)) (ws : WebSocketStream) :
  connection c = Some ws ->
  let '(rs, c', ev) := send_requests c calls in
  c' = c /\
  length rs = length calls /\
  Forall (fun e => e = EvSend ws \/ e = EvNext ws) ev.
Proof.
  intros Hc. induction calls as [|[net request] calls IH]; simpl.
  - repeat split. constructor.
  - assert (Hone : (send_request c net request).1.2 = c /\
                   Forall (fun e => e = EvSend ws \/ e = EvNext ws)
                          (send_request c net request).2).
    { unfold send_request. destruct c as [url [ws'|]]; simpl in *;
        [|discriminate]. injection Hc as ->.
      destruct (ws_send net); simpl;
        [destruct (ws_next net) as [[[[r|]| | | |]|e]|]|]; simpl;
        split; auto; repeat constructor; auto. }
    destruct (send_request c net request) as [[r c1] ev1].
    simpl in Hone. destruct Hone as [-> Hev1].
    destruct (send_requests c calls) as [[rs c2] ev2].
    destruct IH as (-> & Hlen & Hev2).
    repeat split; [simpl; congruence|]. apply Forall_app; auto.
Qed.

Lemma stored_connection_is_kept_witness :
  let calls :=
    [(Scenario.send_fails,
      {| request_type := "predict"; opportunity := None;
         opportunities := None; targets := None |});
     (Scenario.server_down,
      {| request_type := "feature_importance"; opportunity := None;
         opportunities := None; targets := None |})] in
  connection Scenario.connected = Some 0%nat /\
  let '(rs, c', ev) := send_requests Scenario.connected calls in
  c' = Scenario.connected /\
  length rs = length calls /\
  Forall (fun e => e = EvSend 0%nat \/ e = EvNext 0%nat) ev.
Proof.
  split; [reflexivity|].
  apply (stored_connection_is_kept Scenario.connected
    [(Scenario.send_fails,
      {| request_type := "predict"; opportunity := None;
         opportunities := None; targets := None |});
     (Scenario.server_down,
      {| request_type := "feature_importance"; opportunity := None;
         opportunities := None; targets := None |})] 0%nat).
  reflexivity.
Defined.

(** A call that finds no connection stored makes one handshake.  When it
    fails, nothing is sent, the call fails with the handshake's error and
    the client stays without a connection.  When it succeeds, the stream
    is stored, whether the request then succeeds or not. *)
Theorem handshake_outcome (c : MLClient) (net : Net) (request : MLRequest) :
  connection c = None ->
  match connect_async net with
  | None => send_request c net request = (Err ConnectError, c, [EvConnect])
  | Some ws =>
      connection (send_request c net request).1.2 = Some ws /\
      ws_url (send_request c net request).1.2 = ws_url c /\
      head (send_request c net request).2 = Some EvConnect
  end.
Proof.
  intros Hc. unfold send_request, connect. rewrite Hc.
  destruct (connect_async net) as [ws|]; [|reflexivity]. simpl.
  destruct (ws_send net); simpl;
    [destruct (ws_next net) as [[[[r|]| | | |]|e]|]|]; simpl; auto.
Qed.

Lemma handshake_outcome_witness :
  connection Client.new = None /\
  send_request Client.new Scenario.server_down
    {| request_type := "predict"; opportunity := None;
       opportunities := None; targets := None |}
  = (Err ConnectError, Client.new, [EvConnect]).
Proof.
  split; [reflexivity|].
  apply (handshake_outcome Client.new Scenario.server_down
    {| request_type := "predict"; opportunity := None;
       opportunities := None; targets := None |}).
  reflexivity.
Defined.

(** [MetalMLEngine::train] never fails: when the remote training fails the
    fallback answers [Ok(())], and the loss of a remote training is dropped,
    so the caller cannot tell the two apart.  The connection is handled as
    by any other request. *)
Theorem engine_train_never_fails (e : MetalMLEngine.t) (net : Net)
  (data : list ArbitrageOpportunity) :
  (engine_train e net data).1.1 = Ok tt /\
  MetalMLEngine.client (engine_train e net data).1.2 =
    (send_request (MetalMLEngine.client e) net
       {| request_type := "train"; opportunity := None;
          opportunities := Some (map convert_opportunity data);
          targets := Some (map profit_usd data) |}).1.2.
Proof.
  unfold engine_train, train.
  destruct (send_request _ _ _) as [[[r|x] c'] ev']; simpl; auto.
Qed.

End ClientMore.

(** ** More on the server: what the requests do to the engine *)

Module ServerMore.
Import Py Torch Engine.

Section Backend.
Context {Optimizer : Type}.
Variable forward_train :
  MetalOptimizedNN -> Tensor -> M (Tensor * MetalOptimizedNN).
Variable optimizer_step :
  MetalOptimizedNN -> Optimizer -> Tensor -> Tensor ->
  MetalOptimizedNN * Optimizer.
Variable probe_gradient : MetalOptimizedNN -> list f32.

Implicit Types (e : ArbitrageMLEngine Optimizer).

Abbreviation handle_message' :=
  (handle_message forward_train optimizer_step probe_gradient).
Abbreviation handle_client' :=
  (handle_client forward_train optimizer_step probe_gradient).

(** A frame that is not a training request leaves the engine as it is, or
    only switches the model to evaluation mode. *)
Lemma handle_message_inference e (frame : option Value) (now : string) :
  Frames.is_type "train" frame = false ->
  (handle_message' e frame now).2 = e \/
  (handle_message' e frame now).2 = set_model e (eval (model e)).
Proof.
  unfold Frames.is_type, Frames.request_type, handle_message.
  destruct frame as [data|]; [|auto].
  destruct (getitem data "type") as [ty|exn]; [|auto].
  cbn [mbind Result_bind mret Result_ret]. intros ->.
  destruct (eq_str ty "predict").
  { destruct (getitem data "opportunity"); auto. }
  destruct (eq_str ty "batch_predict").
  { destruct (getitem data "opportunities") as [opps|]; [|auto].
    unfold batch_predict. destruct (negb (truthy opps)); auto. }
  destruct (eq_str ty "feature_importance"); auto.
Qed.

(** What a training request does to the loss history and the scheduler:
    nothing, or one loss appended and one step. *)
Lemma train_batch_history e (opportunities targets : Value) :
  let e' := (train_batch forward_train optimizer_step e opportunities targets).2 in
  validation_scores e' = validation_scores e /\
  ((loss_history e' = loss_history e /\ scheduler e' = scheduler e) \/
   (exists loss, loss_history e' = loss_history e ++ [loss] /\
                 scheduler e' = S (scheduler e))).
Proof.
  unfold train_batch. cbv zeta.
  destruct (_ ≫= _) as [[bf bt]|exn]; [|simpl; auto].
  cbn [model set_model].
  destruct (forward_train (train (model e)) bf) as [[preds m1]|exn];
    [|simpl; auto].
  destruct (mse_loss preds bt) as [l|exn]; [|simpl; auto].
  cbn [model optimizer set_model].
  destruct (optimizer_step m1 (optimizer e) bf bt) as [m2 o2].
  simpl. split; [reflexivity|]. right. eauto.
Qed.

Lemma handle_message_history e (frame : option Value) (now : string) :
  let e' := (handle_message' e frame now).2 in
  validation_scores e' = validation_scores e /\
  exists new,
    loss_history e' = loss_history e ++ new /\
    scheduler e' = (scheduler e + length new)%nat /\
    (length new <= if Frames.is_type "train" frame then 1 else 0)%nat.
Proof.
  cbv zeta. destruct (Frames.is_type "train" frame) eqn:Htrain.
  - unfold Frames.is_type, Frames.request_type in Htrain.
    unfold handle_message.
    destruct frame as [data|]; [|discriminate].
    destruct (getitem data "type") as [ty|exn]; [|discriminate].
    cbn [mbind Result_bind mret Result_ret]. rewrite Htrain.
    destruct (_ ≫= _) as [[opps targets]|exn].
    + pose proof (train_batch_history e opps targets) as H. cbv zeta in H.
      destruct (train_batch forward_train optimizer_step e opps targets)
        as [r e1]. simpl in *.
      destruct H as (Hv & [[Hl Hs]|(loss & Hl & Hs)]).
      * split; [exact Hv|]. exists []. rewrite app_nil_r. simpl.
        repeat split; auto; lia.
      * split; [exact Hv|]. exists [loss]. simpl.
        repeat split; auto; lia.
    + simpl. split; [reflexivity|]. exists []. rewrite app_nil_r. simpl.
      repeat split; lia.
  - destruct (handle_message_inference e frame now Htrain) as [->| ->];
      (split; [reflexivity|]); exists []; simpl; rewrite app_nil_r;
      repeat split; lia.
Qed.

(** A request of an unknown type gets an error reply, leaves the engine
    untouched and does not end the handler: the frames after it are
    handled as if it had not been there. *)
Theorem unknown_type_is_answered e (data ty : Value) (now : string)
  (rest : list (option Value * string)) :
  getitem data "type" = Ok ty ->
  eq_str ty "train" = false -> eq_str ty "predict" = false ->
  eq_str ty "batch_predict" = false ->
  eq_str ty "feature_importance" = false ->
  exists reply,
    handle_message' e (Some data) now = (Ok reply, e) /\
    getitem reply "type" = Ok (VStr "error") /\
    handle_client' e ((Some data, now) :: rest) =
      (reply :: (handle_client' e rest).1.1,
       (handle_client' e rest).1.2, (handle_client' e rest).2).
Proof.
  intros Hty H1 H2 H3 H4.
  eexists. split; [|split].
  - unfold handle_message. rewrite Hty.
    cbn [mbind Result_bind mret Result_ret]. rewrite H1, H2, H3, H4.
    reflexivity.
  - reflexivity.
  - cbn [handle_client]. unfold handle_message. rewrite Hty.
    cbn [mbind Result_bind mret Result_ret]. rewrite H1, H2, H3, H4.
    cbn. destruct (handle_client' e rest) as [[sent e'] open]. reflexivity.
Qed.

(** Requests other than training requests never touch the parameters, the
    optimizer, the scheduler or the histories: after any sequence of them
    the engine differs from the one before at most in the mode of the
    model. *)
Theorem inference_keeps_model_state e (frames : list (option Value * string)) :
  Forall (fun f => Frames.is_type "train" f.1 = false) frames ->
  let e' := (handle_client' e frames).1.2 in
  layers (model e') = layers (model e) /\
  output (model e') = output (model e) /\
  optimizer e' = optimizer e /\
  scheduler e' = scheduler e /\
  loss_history e' = loss_history e /\
  validation_scores e' = validation_scores e.
Proof.
  intros H. revert e. induction H as [|[frame now] frames Hf _ IH]; intros e.
  - repeat split; reflexivity.
  - cbn [handle_client]. simpl in Hf.
    pose proof (handle_message_inference e frame now Hf) as Hstep.
    destruct (handle_message' e frame now) as [[reply|exn] e1];
      simpl in Hstep.
    + specialize (IH e1).
      destruct (handle_client' e1 frames) as [[sent e2] open].
      simpl in *. destruct IH as (? & ? & ? & ? & ? & ?).
      destruct Hstep as [->| ->]; simpl in *; repeat split; congruence.
    + simpl. destruct Hstep as [->| ->]; simpl; auto 10.
Qed.

(** Over any sequence of frames the loss history only grows at its end,
    by at most one entry per training request, the scheduler has stepped
    exactly once per entry, and the validation scores are never written. *)
Theorem history_and_scheduler_in_step e
  (frames : list (option Value * string)) :
  let e' := (handle_client' e frames).1.2 in
  validation_scores e' = validation_scores e /\
  exists new,
    loss_history e' = loss_history e ++ new /\
    scheduler e' = (scheduler e + length new)%nat /\
    (length new <=
     length (List.filter (fun f => Frames.is_type "train" f.1) frames))%nat.
Proof.
  revert e. induction frames as [|[frame now] frames IH]; intros e.
  - simpl. split; [reflexivity|]. exists []. rewrite app_nil_r. simpl.
    repeat split; lia.
  - cbn [handle_client].
    pose proof (handle_message_history e frame now) as Hstep.
    cbv zeta in Hstep.
    assert (Hfilter :
      (length (List.filter (fun f : option Value * string =>
                              Frames.is_type "train" f.1) frames)
       + (if Frames.is_type "train" frame then 1 else 0)
       <= length (List.filter (fun f : option Value * string =>
                                 Frames.is_type "train" f.1)
                              ((frame, now) :: frames)))%nat).
    { cbn [List.filter fst].
      destruct (Frames.is_type "train" frame); cbn [length]; lia. }
    destruct (handle_message' e frame now) as [[reply|exn] e1];
      simpl in Hstep; destruct Hstep as (Hv & new1 & Hl & Hs & Hn).
    + specialize (IH e1). cbv zeta in IH.
      destruct (handle_client' e1 frames) as [[sent e2] open].
      simpl in *. destruct IH as (Hv2 & new2 & Hl2 & Hs2 & Hn2).
      split; [congruence|]. exists (new1 ++ new2).
      rewrite Hl2, Hl, Hs2, Hs, length_app, app_assoc.
      repeat split; try reflexivity;
        destruct (Frames.is_type "train" frame); cbn [length] in *; lia.
    + simpl. split; [exact Hv|]. exists new1. repeat split; auto.
      destruct (Frames.is_type "train" frame); cbn [length] in *; lia.
Qed.

(** Apart from a batch of one, [batch_predict] returns the scores of
    [predict], one per opportunity and in order; the empty batch gives the
    empty list. *)
Theorem batch_predict_matches_predict e (opps : list Value)
  (scores : list f64) :
  length opps <> 1%nat ->
  Forall2 (fun opp s => (predict e opp).1 = Ok s) opps scores ->
  (batch_predict e (VList opps)).1 = Ok (VList (map VFloat scores)) /\
  length scores = length opps.
Proof.
  intros Hlen Hall.
  split; [|symmetry; eapply Forall2_length; exact Hall].
  destruct opps as [|o1 [|o2 opps]].
  - inversion Hall; subst. reflexivity.
  - contradiction Hlen. reflexivity.
  - apply EngineProps.batch_predict_many; [simpl; lia|exact Hall].
Qed.

(** A feature-importance request never gets its result: the twelve values
    are [numpy.float32] scalars, which [json.dumps] refuses, so the reply
    is an error and the handler ends. *)
Theorem feature_importance_is_not_serializable e (data : Value)
  (now : string) (rest : list (option Value * string)) :
  getitem data "type" = Ok (VStr "feature_importance") ->
  length (probe_gradient (eval (model e))) = 12%nat ->
  exists exn,
    kind exn = TypeError /\
    handle_message' e (Some data) now = (Err exn, set_model e (eval (model e))) /\
    handle_client' e ((Some data, now) :: rest) =
      ([error_response exn], set_model e (eval (model e)), false).
Proof.
  intros Hty Hlen.
  exists (Exception TypeError
            "Object of type float32 is not JSON serializable").
  split; [reflexivity|].
  assert (Hm : handle_message' e (Some data) now =
    (Err (Exception TypeError
            "Object of type float32 is not JSON serializable"),
     set_model e (eval (model e)))).
  { unfold handle_message. rewrite Hty.
    cbn [mbind Result_bind mret Result_ret eq_str String.eqb Ascii.eqb
         Bool.eqb].
    unfold calculate_feature_importance. cbn [model set_model].
    destruct (probe_gradient (eval (model e)))
      as [|g0 [|g1 [|g2 [|g3 [|g4 [|g5 [|g6 [|g7 [|g8 [|g9 [|g10 [|g11 [|]]]]]]]]]]]]];
      try discriminate Hlen.
    reflexivity. }
  split; [exact Hm|]. cbn [handle_client]. rewrite Hm. reflexivity.
Qed.

End Backend.

Lemma unknown_type_is_answered_witness :
  let data := dict [("type", VStr "ping")] in
  getitem data "type" = Ok (VStr "ping") /\
  exists reply,
    handle_message Examples.forward_train Examples.optimizer_step
      Examples.probe_gradient Examples.engine (Some data) "t0"
    = (Ok reply, Examples.engine) /\
    getitem reply "type" = Ok (VStr "error") /\
    handle_client Examples.forward_train Examples.optimizer_step
      Examples.probe_gradient Examples.engine [(Some data, "t0")]
    = ([reply], Examples.engine, true).
Proof.
  split; [reflexivity|].
  destruct (unknown_type_is_answered Examples.forward_train
              Examples.optimizer_step Examples.probe_gradient Examples.engine
              (dict [("type", VStr "ping")]) (VStr "ping") "t0" [])
    as (reply & H1 & H2 & H3); try reflexivity.
  exists reply. repeat split; assumption.
Defined.

Lemma inference_keeps_model_state_witness :
  let frames :=
    [(Some (Examples.predict_request Examples.empty_opportunity), "t0");
     (Some (Examples.batch_predict_request [Examples.empty_opportunity]), "t1");
     (None, "t2")] in
  Forall (fun f => Frames.is_type "train" f.1 = false) frames /\
  let e' :=
    (handle_client Examples.forward_train Examples.optimizer_step
       Examples.probe_gradient Examples.engine frames).1.2 in
  layers (model e') = layers (model Examples.engine) /\
  output (model e') = output (model Examples.engine) /\
  optimizer e' = optimizer Examples.engine /\
  scheduler e' = scheduler Examples.engine /\
  loss_history e' = loss_history Examples.engine /\
  validation_scores e' = validation_scores Examples.engine.
Proof.
  assert (H : Forall (fun f : option Value * string =>
                        Frames.is_type "train" f.1 = false)
    [(Some (Examples.predict_request Examples.empty_opportunity), "t0");
     (Some (Examples.batch_predict_request [Examples.empty_opportunity]), "t1");
     (None, "t2")]).
  { repeat constructor. }
  split; [exact H|].
  exact (inference_keeps_model_state Examples.forward_train
           Examples.optimizer_step Examples.probe_gradient Examples.engine
           _ H).
Defined.

Lemma batch_predict_matches_predict_witness :
  let opps := [Examples.empty_opportunity; Examples.empty_opportunity] in
  let scores := [IEEE.lit 24 128 13 10; IEEE.lit 24 128 13 10] in
  length opps <> 1%nat /\
  Forall2 (fun opp s => (predict Examples.engine opp).1 = Ok s) opps scores /\
  (batch_predict Examples.engine (VList opps)).1
    = Ok (VList (map VFloat scores)) /\
  length scores = length opps.
Proof.
  assert (H : Forall2 (fun opp s => (predict Examples.engine opp).1 = Ok s)
    [Examples.empty_opportunity; Examples.empty_opportunity]
    [IEEE.lit 24 128 13 10; IEEE.lit 24 128 13 10]).
  { repeat constructor; vm_compute; reflexivity. }
  split; [discriminate|]. split; [exact H|].
  apply (batch_predict_matches_predict Examples.engine
           [Examples.empty_opportunity; Examples.empty_opportunity]
           [IEEE.lit 24 128 13 10; IEEE.lit 24 128 13 10]);
    [discriminate|exact H].
Defined.

Lemma feature_importance_is_not_serializable_witness :
  let data := dict [("type", VStr "feature_importance")] in
  getitem data "type" = Ok (VStr "feature_importance") /\
  length (Examples.probe_gradient (eval (model Examples.engine))) = 12%nat /\
  exists exn,
    kind exn = TypeError /\
    handle_message Examples.forward_train Examples.optimizer_step
      Examples.probe_gradient Examples.engine (Some data) "t0"
    = (Err exn, set_model Examples.engine (eval (model Examples.engine))) /\
    handle_client Examples.forward_train Examples.optimizer_step
      Examples.probe_gradient Examples.engine [(Some data, "t0")]
    = ([error_response exn],
       set_model Examples.engine (eval (model Examples.engine)), false).
Proof.
  split; [reflexivity|]. split; [reflexivity|].
  apply (feature_importance_is_not_serializable Examples.forward_train
           Examples.optimizer_step Examples.probe_gradient Examples.engine
           (dict [("type", VStr "feature_importance")]) "t0" []);
    reflexivity.
Defined.

Lemma predict_agree_witness :
  let d1 : gmap string Value :=
    {[ "initial_amount" := Py.of_Z 5000; "pair" := VStr "WETH/USDC" ]} in
  let d2 : gmap string Value :=
    {[ "initial_amount" := Py.of_Z 5000; "route" := VStr "uniswap" ]} in
  Forall (fun key => d1 !! key = d2 !! key) feature_names /\
  predict Examples.engine (VDict d1) = predict Examples.engine (VDict d2).
Proof.
  assert (H : Forall (fun key =>
      ({[ "initial_amount" := Py.of_Z 5000; "pair" := VStr "WETH/USDC" ]}
         : gmap string Value) !! key
      = ({[ "initial_amount" := Py.of_Z 5000; "route" := VStr "uniswap" ]}
           : gmap string Value) !! key) feature_names).
  { repeat constructor. }
  split; [exact H|].
  exact (EncoderProps.predict_agree Examples.engine _ _ H).
Defined.

End ServerMore.

(** ** More on the stream processor *)

Module ArbMLMore.
Import Py Torch ArbML.

Lemma bind_Err_inv {E A B} (m : Result E A) (f : A -> Result E B) (exn : E) :
  (m ≫= f) = Err exn -> m = Err exn \/ exists a, m = Ok a /\ f a = Err exn.
Proof. destruct m as [a|e]; simpl; [eauto|intros [= ->]; auto]. Qed.

Lemma bind_Ok_inv' {E A B} (m : Result E A) (f : A -> Result E B) (b : B) :
  (m ≫= f) = Ok b -> exists a, m = Ok a /\ f a = Ok b.
Proof. destruct m as [a|e]; [eauto|discriminate]. Qed.

Lemma traverse_cons_inv {E A B} (f : A -> Result E B) (x : A) (l : list A)
  (v : list B) :
  traverse f (x :: l) = Ok v ->
  exists y ys, f x = Ok y /\ v = y :: ys /\ traverse f l = Ok ys.
Proof.
  simpl. intros H. apply bind_Ok_inv' in H as (y & Hy & H).
  apply bind_Ok_inv' in H as (ys & Hys & H). injection H as <-. eauto.
Qed.

Lemma get_raises (o : Value) (key : string) (d : Value) (exn : Exn) :
  get o key d = Err exn -> kind exn = AttributeError.
Proof. destruct o; simpl; try discriminate; intros [= <-]; reflexivity. Qed.

Lemma as_float_raises (v : Value) (exn : Exn) :
  as_float v = Err exn -> kind exn = TypeError.
Proof. destruct v; simpl; try discriminate; intros [= <-]; reflexivity. Qed.

Lemma to_float32_raises (v : Value) (exn : Exn) :
  to_float32 v = Err exn -> kind exn = TypeError.
Proof. destruct v; simpl; try discriminate; intros [= <-]; reflexivity. Qed.

Lemma traverse_to_float32_raises (l : list Value) (exn : Exn) :
  traverse to_float32 l = Err exn -> kind exn = TypeError.
Proof.
  induction l as [|v l IH]; simpl; [discriminate|].
  intros H. apply bind_Err_inv in H as [H|(x & _ & H)];
    [eapply to_float32_raises, H|].
  apply bind_Err_inv in H as [H|(xs & _ & H)]; [auto|discriminate H].
Qed.

Lemma truediv_nonzero_raises (a : Value) (y : f64) (exn : Exn) :
  is_zero y = false ->
  truediv a (VFloat y) = Err exn -> kind exn = TypeError.
Proof.
  intros Hy. unfold truediv. destruct (as_float a) as [x|e] eqn:Ha; simpl.
  - rewrite Hy. discriminate.
  - intros [= <-]. eapply as_float_raises, Ha.
Qed.

(** [max(n, 1)] is never zero. *)
Lemma max2_one_nonzero (n : f64) : is_zero (max2 n (F64.of_Z 1)) = false.
Proof.
  unfold max2. destruct (F64.ltb n (F64.of_Z 1)) eqn:Hlt; [reflexivity|].
  destruct n; try reflexivity; destruct s; discriminate Hlt.
Qed.

(** The target of a training example: neither division raises
    [ZeroDivisionError], whatever the example holds.  The profit ratio
    divides by [max(netProfit, 1)], which is never zero: it is [1] for a
    zero or negative [netProfit] and NaN for NaN; the priority divides by
    the constant [100].  A target that is built has three components, the
    first of them [0.0] or [1.0]. *)
Theorem target_never_divides_by_zero (data : Value) :
  (forall exn, target_of data = Err exn -> kind exn <> ZeroDivisionError) /\
  (forall t, target_of data = Ok t ->
             exists s r p, t = [s; r; p] /\
                           (s = F32.zero \/ s = F32.of_Z 1)).
Proof.
  unfold target_of. split.
  - intros exn H.
    enough (kind exn = AttributeError \/ kind exn = TypeError) as [-> | ->];
      [discriminate|discriminate|].
    apply bind_Err_inv in H as [H|(s & _ & H)];
      [left; eapply get_raises, H|].
    apply bind_Err_inv in H as [H|(ap & _ & H)];
      [left; eapply get_raises, H|].
    apply bind_Err_inv in H as [H|(np & _ & H)];
      [left; eapply get_raises, H|].
    apply bind_Err_inv in H as [H|(n & _ & H)];
      [right; eapply as_float_raises, H|].
    apply bind_Err_inv in H as [H|(pr & _ & H)];
      [right; eapply truediv_nonzero_raises;
       [apply max2_one_nonzero|exact H]|].
    apply bind_Err_inv in H as [H|(np2 & _ & H)];
      [left; eapply get_raises, H|].
    apply bind_Err_inv in H as [H|(q & _ & H)];
      [right; eapply (truediv_nonzero_raises _ (F64.of_Z 100));
       [reflexivity|exact H]|].
    apply bind_Err_inv in H as [H|(q' & _ & H)];
      [right; eapply as_float_raises, H|].
    right. eapply traverse_to_float32_raises, H.
  - intros t H.
    apply bind_Ok_inv' in H as (sv & _ & H).
    do 7 (apply bind_Ok_inv' in H as (? & _ & H)).
    apply traverse_cons_inv in H as (s & t1 & Hs & -> & H).
    apply traverse_cons_inv in H as (r & t2 & _ & -> & H).
    apply traverse_cons_inv in H as (p & t3 & _ & -> & H).
    injection H as <-.
    exists s, r, p. split; [reflexivity|].
    destruct (truthy sv); injection Hs as <-; [right|left]; reflexivity.
Qed.

(** An encoding has ten components; the two chain flags and the two
    exchange flags are [0.0] or [1.0], and the chain flags are never both
    set. *)
Theorem preprocess_shape (now_hour : Z) (opp : Value) (v : list f32) :
  preprocess_opportunity now_hour opp = Ok v ->
  exists f0 f1 f2 f3 f4 eth arb u1 u2 f9,
    v = [f0; f1; f2; f3; f4; eth; arb; u1; u2; f9] /\
    Forall (fun x => x = F32.zero \/ x = F32.of_Z 1) [eth; arb; u1; u2] /\
    ~ (eth = F32.of_Z 1 /\ arb = F32.of_Z 1).
Proof.
  unfold preprocess_opportunity. intros H.
  do 5 (apply bind_Ok_inv' in H as (? & _ & H)).
  apply bind_Ok_inv' in H as (c5 & Hc5 & H).
  apply bind_Ok_inv' in H as (c6 & Hc6 & H).
  assert (c6 = c5) as -> by congruence.
  apply bind_Ok_inv' in H as (u1 & Hu1 & H).
  apply bind_Ok_inv' in H as (u2 & Hu2 & H).
  apply bind_Ok_inv' in H as (f9 & _ & H).
  assert (Hflag : forall d u,
    (get opp d (VStr "") ≫= has_uniswap) = Ok u ->
    u = Py.of_Z 0 \/ u = Py.of_Z 1).
  { intros d u Hu. apply bind_Ok_inv' in Hu as (w & _ & Hu).
    destruct w; try discriminate Hu. simpl in Hu.
    destruct (contains "uniswap" (lower s)); injection Hu as <-; auto. }
  apply Hflag in Hu1, Hu2. clear Hflag.
  do 5 (apply traverse_cons_inv in H as (? & ? & _ & -> & H)).
  apply traverse_cons_inv in H as (eth & ? & Heth & -> & H).
  apply traverse_cons_inv in H as (arb & ? & Harb & -> & H).
  apply traverse_cons_inv in H as (y1 & ? & Hy1 & -> & H).
  apply traverse_cons_inv in H as (y2 & ? & Hy2 & -> & H).
  apply traverse_cons_inv in H as (y9 & ? & _ & -> & H).
  injection H as <-.
  do 10 eexists. split; [reflexivity|].
  assert (Hone : forall b : bool,
    to_float32 (Py.of_Z (if b then 1 else 0)) =
    Ok (if b then F32.of_Z 1 else F32.zero)) by (intros []; reflexivity).
  rewrite Hone in Heth, Harb.
  injection Heth as <-. injection Harb as <-.
  split.
  - constructor; [|constructor; [|constructor; [|constructor; [|constructor]]]].
    + destruct (eq_str c5 "ethereum"); auto.
    + destruct (eq_str c5 "arbitrum"); auto.
    + destruct Hu1 as [-> | ->]; injection Hy1 as <-; auto.
    + destruct Hu2 as [-> | ->]; injection Hy2 as <-; auto.
  - intros [He Ha].
    destruct c5 as [| | |s| | |]; try discriminate He.
    unfold eq_str in He, Ha.
    destruct (String.eqb_spec s "ethereum") as [->|]; [|discriminate He].
    discriminate Ha.
Qed.

Section Backend.
Context {Optimizer : Type}.
Variable adam_step :
  ArbitragePredictor -> Optimizer -> list f32 -> list f32 ->
  ArbitragePredictor * Optimizer.
Variable recommend_action : ArbitragePredictor -> Z -> Value -> M unit.

Implicit Types (ml : ArbitrageML Optimizer).

(** Training is not atomic: when an example of the batch raises, the
    steps on the examples before it stay applied and the examples after
    it are not reached. *)
Theorem train_loop_stops_at_failure (now_hour : Z)
  (m m1 : ArbitragePredictor) (o o1 : Optimizer)
  (good rest : list Value) (bad : Value) (exn : Exn) :
  train_loop adam_step now_hour m o good = (Ok tt, m1, o1) ->
  (features ← preprocess_opportunity now_hour bad;
   target ← target_of bad;
   mret (features, target)) = Err exn ->
  train_loop adam_step now_hour m o (good ++ bad :: rest) = (Err exn, m1, o1).
Proof.
  intros Hgood Hbad. revert m o Hgood.
  induction good as [|x good IH]; intros m o Hgood; simpl in *.
  - injection Hgood as -> ->. rewrite Hbad. reflexivity.
  - destruct (features ← preprocess_opportunity now_hour x;
              target ← target_of x;
              mret (features, target)) as [[features target]|e];
      [|discriminate Hgood].
    destruct (adam_step m o features target) as [m' o']. apply IH, Hgood.
Qed.

Lemma process_line_call ml (line : option Value) (now_hour : Z) :
  match (process_line adam_step recommend_action ml line now_hour).2 with
  | Some batch => length batch = 50%nat
  | None => True
  end.
Proof.
  unfold process_line. destruct line as [opps|]; [|exact I].
  destruct (truthy opps); [|exact I].
  destruct (recommend_action _ _ _); [|exact I].
  destruct (first5 opps) as [new|]; [|exact I].
  cbn [data_buffer model optimizer].
  destruct (Nat.leb_spec 50 (length (data_buffer ml ++ new))) as [Hge|Hlt];
    [|exact I].
  destruct (train_on_batch _ _ _ _) as [[[]|e] ml1]; simpl;
    unfold last_n; rewrite length_drop; lia.
Qed.

(** Whatever the lines hold, [process_stream] calls [train_on_batch] at
    most once per line and always with exactly fifty examples: the guard
    for fewer than ten is never reached from the stream. *)
Theorem stream_batches_have_fifty ml (lines : list (option Value * Z)) :
  let calls := (process_stream adam_step recommend_action ml lines).2 in
  Forall (fun batch => length batch = 50%nat) calls /\
  (length calls <= length lines)%nat.
Proof.
  cbv zeta. revert ml.
  induction lines as [|[line h] lines IH]; intros ml; simpl.
  - split; [constructor|lia].
  - pose proof (process_line_call ml line h) as Hcall.
    destruct (process_line adam_step recommend_action ml line h)
      as [ml1 call].
    specialize (IH ml1).
    destruct (process_stream adam_step recommend_action ml1 lines)
      as [ml2 calls].
    simpl in *. destruct IH as [Hall Hlen].
    destruct call as [batch|]; simpl; split; auto; lia.
Qed.

(** What one line does to the buffer. *)
Lemma process_line_buffer ml (line : option Value) (now_hour : Z) :
  let ml' := (process_line adam_step recommend_action ml line now_hour).1 in
  data_buffer ml' = data_buffer ml \/
  exists v new,
    line = Some v /\ first5 v = Ok new /\
    ((length (data_buffer ml ++ new) < 50)%nat /\
     data_buffer ml' = data_buffer ml ++ new \/
     (50 <= length (data_buffer ml ++ new))%nat /\
     (data_buffer ml' = last_n 100 (data_buffer ml ++ new) \/
      ~ Forall trainable (data_buffer ml ++ new) /\
      data_buffer ml' = data_buffer ml ++ new)).
Proof.
  cbv zeta. unfold process_line. destruct line as [opps|]; [|auto].
  destruct (truthy opps); [|auto].
  destruct (recommend_action _ _ _); [|auto].
  destruct (first5 opps) as [new|] eqn:Hnew; [|auto].
  right. exists opps, new. split; [reflexivity|]. split; [exact Hnew|].
  cbn [data_buffer model optimizer].
  destruct (Nat.leb_spec 50 (length (data_buffer ml ++ new))) as [Hge|Hlt];
    [|auto].
  right. split; [exact Hge|].
  pose proof (ArbMLProps.train_on_batch_buffer adam_step now_hour
    {| model := set_training (model ml) false; optimizer := optimizer ml;
       data_buffer := data_buffer ml ++ new |}
    (last_n 50 (data_buffer ml ++ new))) as Hbuf.
  pose proof (ArbMLProps.train_on_batch_ok adam_step now_hour
    {| model := set_training (model ml) false; optimizer := optimizer ml;
       data_buffer := data_buffer ml ++ new |}
    (last_n 50 (data_buffer ml ++ new))) as Hok.
  destruct (train_on_batch _ _ _ _) as [[[]|exn] ml1];
    cbn [fst snd data_buffer] in *; rewrite Hbuf; [auto|].
  right. split; [|reflexivity]. intros Htr.
  assert (Err exn = Ok ()) as Habs; [|discriminate Habs].
  apply Hok. unfold last_n. apply Forall_drop, Htr.
Qed.

(** When every example that can enter the buffer is one on which a
    training step cannot raise, the buffer never holds more than a hundred
    examples, whatever the lines hold and however many opportunities each
    brings. *)
Theorem buffer_stays_bounded ml (lines : list (option Value * Z)) :
  (length (data_buffer ml) <= 100)%nat ->
  Forall trainable (data_buffer ml) ->
  Forall (fun l => forall v new,
            l.1 = Some v -> first5 v = Ok new -> Forall trainable new)
         lines ->
  let ml' := (process_stream adam_step recommend_action ml lines).1 in
  (length (data_buffer ml') <= 100)%nat /\
  Forall trainable (data_buffer ml').
Proof.
  intros Hlen Htr Hlines. cbv zeta. revert ml Hlen Htr.
  induction Hlines as [|[line h] lines Hline _ IH]; intros ml Hlen Htr.
  - simpl. auto.
  - cbn [process_stream].
    pose proof (process_line_buffer ml line h) as Hstep. cbv zeta in Hstep.
    destruct (process_line adam_step recommend_action ml line h)
      as [ml1 call].
    specialize (IH ml1).
    destruct (process_stream adam_step recommend_action ml1 lines)
      as [ml2 calls].
    cbn [fst snd] in *. apply IH.
    + destruct Hstep as [->|(v & new & -> & Hnew & Hcase)]; [exact Hlen|].
      destruct Hcase as [[Hlt ->]|[Hge [->|[Hno _]]]].
      * lia.
      * rewrite ArbMLProps.length_last_n. lia.
      * contradiction Hno. apply Forall_app. split; [exact Htr|].
        eapply Hline; [reflexivity|exact Hnew].
    + destruct Hstep as [->|(v & new & -> & Hnew & Hcase)]; [exact Htr|].
      assert (Forall trainable (data_buffer ml ++ new)) as Hall.
      { apply Forall_app. split; [exact Htr|].
        eapply Hline; [reflexivity|exact Hnew]. }
      destruct Hcase as [[Hlt ->]|[Hge [->|[_ ->]]]]; auto.
      unfold last_n. apply Forall_drop, Hall.
Qed.

End Backend.

(** An outcome whose actual profit is not a number passes the encoding
    but not the target. *)
Example unlabelled_outcome_is_not_trainable :
  let x := dict [("netProfit", Py.of_Z 5); ("actual_profit", VStr "n/a")] in
  is_ok (preprocess_opportunity 10 x) = true /\
  is_ok (target_of x) = false.
Proof. vm_compute. auto. Qed.

Lemma buffer_stays_bounded_witness :
  let lines :=
    repeat (Some (VList (repeat Examples.full_opportunity 7)), 10) 30 in
  let ml := init Examples.wait_model tt in
  (length (data_buffer ml) <= 100)%nat /\
  Forall trainable (data_buffer ml) /\
  Forall (fun l => forall v new,
            l.1 = Some v -> first5 v = Ok new -> Forall trainable new)
         lines /\
  let ml' :=
    (process_stream Examples.adam_step Examples.recommend_action ml lines).1 in
  (length (data_buffer ml') <= 100)%nat /\
  Forall trainable (data_buffer ml').
Proof.
  assert (Hlines : Forall (fun l : option Value * Z => forall v new,
            l.1 = Some v -> first5 v = Ok new -> Forall trainable new)
    (repeat (Some (VList (repeat Examples.full_opportunity 7)), 10) 30)).
  { apply Forall_forall. intros l Hl.
    apply list_elem_of_In, repeat_spec in Hl. subst l.
    intros v new [= <-] [= <-]. simpl.
    repeat constructor; exact ArbMLProps.full_opportunity_trainable. }
  split; [simpl; lia|]. split; [constructor|]. split; [exact Hlines|].
  apply (buffer_stays_bounded Examples.adam_step Examples.recommend_action
           (init Examples.wait_model tt) _); [simpl; lia|constructor|exact Hlines].
Defined.

Lemma train_loop_stops_at_failure_witness :
  train_loop Examples.adam_step 10 Examples.hour_model tt
             [Examples.empty_opportunity]
    = (Ok tt, Examples.hour_model, tt) /\
  (features ← preprocess_opportunity 10 VNone;
   target ← target_of VNone;
   mret (features, target))
    = raise AttributeError "object has no attribute 'get'" /\
  train_loop Examples.adam_step 10 Examples.hour_model tt
             ([Examples.empty_opportunity] ++ VNone :: [Examples.empty_opportunity])
    = (raise AttributeError "object has no attribute 'get'",
       Examples.hour_model, tt).
Proof.
  split; [reflexivity|]. split; [reflexivity|].
  apply (train_loop_stops_at_failure Examples.adam_step 10
           Examples.hour_model Examples.hour_model tt tt
           [Examples.empty_opportunity] [Examples.empty_opportunity] VNone);
    reflexivity.
Defined.

Lemma preprocess_shape_witness :
  let opp := dict [("chain", VStr "ethereum"); ("dex1", VStr "UniswapV3")] in
  let one := F32.of_Z 1 in
  let v := [F32.zero; F32.zero; F32.zero; F32.zero; F32.zero;
            one; F32.zero; one; F32.zero; IEEE.lit 24 128 1 2] in
  preprocess_opportunity 12 opp = Ok v /\
  exists f0 f1 f2 f3 f4 eth arb u1 u2 f9,
    v = [f0; f1; f2; f3; f4; eth; arb; u1; u2; f9] /\
    Forall (fun x => x = F32.zero \/ x = F32.of_Z 1) [eth; arb; u1; u2] /\
    ~ (eth = F32.of_Z 1 /\ arb = F32.of_Z 1).
Proof.
  split; [vm_compute; reflexivity|].
  apply (preprocess_shape 12
           (dict [("chain", VStr "ethereum"); ("dex1", VStr "UniswapV3")])).
  vm_compute. reflexivity.
Defined.

End ArbMLMore.

(** ** Client and server together *)

Module WireProps.
Import Client Py Torch Engine.

Lemma extract_features_of_fields (v0 v1 v2 v3 v4 v5 v6 v7 v8 v9 v10 v11 : Value) :
  extract_features
    (dict [("initial_amount", v0); ("roi_percentage", v1);
           ("path_length", v2); ("gas_cost", v3); ("flash_loan_fee", v4);
           ("hour", v5); ("day_of_week", v6); ("chain_id", v7);
           ("execution_time", v8); ("volume_ratio", v9);
           ("price_spread", v10); ("liquidity_depth", v11)]) =
  (f0 ← truediv v0 (of_Z 10000);
   f1 ← truediv v1 (of_Z 100);
   f2 ← truediv v2 (of_Z 5);
   f3 ← truediv v3 (of_Z 1000);
   f4 ← truediv v4 (of_Z 100);
   f5 ← truediv v5 (of_Z 24);
   f6 ← truediv v6 (of_Z 7);
   f7 ← truediv v7 (of_Z 10);
   f8 ← truediv v8 (of_Z 1000);
   f10 ← truediv v10 (of_Z 10);
   f11 ← truediv v11 (of_Z 1000000);
   traverse to_float32 [f0; f1; f2; f3; f4; f5; f6; f7; f8; v9; f10; f11]).
Proof. reflexivity. Qed.

Lemma truediv_number (x : f64) (k : Z) {B} (f : Value -> M B) :
  is_zero (F64.of_Z k) = false ->
  (truediv (Wire.number x) (of_Z k) ≫= f) =
  if F64.is_finite x then f (VFloat (F64.div x (F64.of_Z k)))
  else raise TypeError "unsupported operand type(s)".
Proof.
  intros Hk. unfold Wire.number, truediv, of_Z.
  destruct (F64.is_finite x); simpl; [rewrite Hk|]; reflexivity.
Qed.

(** The server reads the fields the client wrote: the two sides use the
    same twelve names, so no default is ever taken, and the features are
    the client's fields scaled.  A field that is NaN or infinite arrives
    as [null], and then the encoding raises [TypeError]. *)
Theorem server_reads_client_fields (d : OpportunityData) :
  match extract_features (Wire.opportunity_data d) with
  | Ok v =>
      Wire.all_finite d = true /\
      v = map F32.round
            [F64.div (od_initial_amount d) (F64.of_Z 10000);
             F64.div (od_roi_percentage d) (F64.of_Z 100);
             F64.div (od_path_length d) (F64.of_Z 5);
             F64.div (od_gas_cost d) (F64.of_Z 1000);
             F64.div (od_flash_loan_fee d) (F64.of_Z 100);
             F64.div (od_hour d) (F64.of_Z 24);
             F64.div (od_day_of_week d) (F64.of_Z 7);
             F64.div (od_chain_id d) (F64.of_Z 10);
             F64.div (od_execution_time d) (F64.of_Z 1000);
             od_volume_ratio d;
             F64.div (od_price_spread d) (F64.of_Z 10);
             F64.div (od_liquidity_depth d) (F64.of_Z 1000000)]
  | Err exn => Wire.all_finite d = false /\ kind exn = TypeError
  end.
Proof.
  destruct d as [x0 x1 x2 x3 x4 x5 x6 x7 x8 x9 x10 x11].
  unfold Wire.opportunity_data, Wire.all_finite.
  cbn [od_initial_amount od_roi_percentage od_path_length od_gas_cost
       od_flash_loan_fee od_hour od_day_of_week od_chain_id
       od_execution_time od_volume_ratio od_price_spread od_liquidity_depth
       forallb].
  rewrite extract_features_of_fields.
  change (Wire.number x9)
    with (if F64.is_finite x9 then VFloat x9 else VNone).
  destruct (F64.is_finite x9);
    repeat (rewrite truediv_number by reflexivity;
            match goal with
            | |- context [if F64.is_finite ?x then _ else raise _ _] =>
                destruct (F64.is_finite x);
                  [|unfold raise; cbn [andb]; split; reflexivity]
            end);
    cbn [traverse to_float32 mbind Result_bind mret Result_ret raise andb];
    split; reflexivity.
Qed.

Section Backend.
Context {Optimizer : Type}.
Variable forward_train :
  MetalOptimizedNN -> Tensor -> M (Tensor * MetalOptimizedNN).
Variable optimizer_step :
  MetalOptimizedNN -> Optimizer -> Tensor -> Tensor ->
  MetalOptimizedNN * Optimizer.
Variable probe_gradient : MetalOptimizedNN -> list f32.

Implicit Types (e : ArbitrageMLEngine Optimizer).

Abbreviation handle_message' :=
  (handle_message forward_train optimizer_step probe_gradient).
Abbreviation handle_client' :=
  (handle_client forward_train optimizer_step probe_gradient).

(** The server routes each request of the client to the engine call of
    the same name, with the client's payload: the tags and the key names
    of the two sides agree. *)
Theorem requests_are_routed e (now : string) :
  (forall d,
     handle_message' e
       (Some (Wire.request
                {| request_type := "predict"; opportunity := Some d;
                   opportunities := None; targets := None |})) now
     = (score ← (predict e (Wire.opportunity_data d)).1;
        json_dumps
          (dict [("type", VStr "prediction"); ("score", VFloat score);
                 ("confidence",
                  VFloat (min2 (F64.div (SFabs score) (F64.of_Z 100))
                               (F64.of_Z 1)));
                 ("timestamp", VStr now)]),
        (predict e (Wire.opportunity_data d)).2)) /\
  (forall ds,
     handle_message' e
       (Some (Wire.request
                {| request_type := "batch_predict"; opportunity := None;
                   opportunities := Some ds; targets := None |})) now
     = (scores ← (batch_predict e
                    (VList (map Wire.opportunity_data ds))).1;
        json_dumps
          (dict [("type", VStr "batch_prediction"); ("scores", scores);
                 ("timestamp", VStr now)]),
        (batch_predict e (VList (map Wire.opportunity_data ds))).2)) /\
  (forall ds ts,
     handle_message' e
       (Some (Wire.request
                {| request_type := "train"; opportunity := None;
                   opportunities := Some ds; targets := Some ts |})) now
     = (loss ← (train_batch forward_train optimizer_step e
                  (VList (map Wire.opportunity_data ds))
                  (VList (map Wire.number ts))).1;
        json_dumps
          (dict [("type", VStr "train_result"); ("loss", VFloat loss);
                 ("timestamp", VStr now)]),
        (train_batch forward_train optimizer_step e
           (VList (map Wire.opportunity_data ds))
           (VList (map Wire.number ts))).2)).
Proof.
  split; [|split].
  - intros d. unfold handle_message.
    change (getitem (Wire.request _) "type") with (@Ok Exn _ (VStr "predict")).
    cbn [mbind Result_bind mret Result_ret].
    change (eq_str (VStr "predict") "train") with false.
    change (eq_str (VStr "predict") "predict") with true. cbn iota.
    change (getitem (Wire.request _) "opportunity")
      with (@Ok Exn _ (Wire.opportunity_data d)).
    cbv beta iota.
    destruct (predict e (Wire.opportunity_data d)) as [r e1]. reflexivity.
  - intros ds. unfold handle_message.
    change (getitem (Wire.request _) "type")
      with (@Ok Exn _ (VStr "batch_predict")).
    cbn [mbind Result_bind mret Result_ret].
    change (eq_str (VStr "batch_predict") "train") with false.
    change (eq_str (VStr "batch_predict") "predict") with false.
    change (eq_str (VStr "batch_predict") "batch_predict") with true.
    cbn iota.
    change (getitem (Wire.request _) "opportunities")
      with (@Ok Exn _ (VList (map Wire.opportunity_data ds))).
    cbv beta iota.
    destruct (batch_predict e _) as [r e1]. reflexivity.
  - intros ds ts. unfold handle_message.
    change (getitem (Wire.request _) "type") with (@Ok Exn _ (VStr "train")).
    cbn [mbind Result_bind mret Result_ret].
    change (eq_str (VStr "train") "train") with true. cbn iota.
    change (getitem (Wire.request _) "opportunities")
      with (@Ok Exn _ (VList (map Wire.opportunity_data ds))).
    cbn [mbind Result_bind mret Result_ret].
    change (getitem (Wire.request _) "targets")
      with (@Ok Exn _ (VList (map Wire.number ts))).
    cbn [mbind Result_bind mret Result_ret]. cbv beta iota.
    destruct (train_batch _ _ _ _ _) as [r e1]. reflexivity.
Qed.

(** *** Replies the client can and cannot read *)

Lemma fold_and_Forall (f : Value -> bool) (d : gmap string Value) :
  map_fold (fun _ x acc => f x && acc) true d = true <->
  map_Forall (fun _ v => f v = true) d.
Proof.
  apply (map_fold_weak_ind
           (fun r (m : gmap string Value) =>
              r = true <-> map_Forall (fun _ v => f v = true) m)).
  - split; [intros _; apply map_Forall_empty|reflexivity].
  - intros k v m r Hk IH.
    rewrite andb_true_iff, IH, map_Forall_insert by exact Hk. reflexivity.
Qed.

Lemma fold_and_list (f : Value -> bool) (kvs : list (string * Value)) :
  NoDup kvs.*1 ->
  map_fold (fun _ x acc => f x && acc) true
           (list_to_map kvs : gmap string Value)
  = forallb (fun kv => f kv.2) kvs.
Proof.
  induction kvs as [|[k v] kvs IH]; intros Hnd; [reflexivity|].
  apply NoDup_cons in Hnd as [Hk Hnd]. specialize (IH Hnd).
  apply eq_iff_eq_true. cbn [list_to_map foldr forallb snd].
  rewrite fold_and_Forall, andb_true_iff, <- IH, fold_and_Forall.
  rewrite map_Forall_insert by (apply not_elem_of_list_to_map_1, Hk).
  reflexivity.
Qed.

Lemma json_valid_dict_list (kvs : list (string * Value)) :
  NoDup kvs.*1 ->
  Wire.json_valid (dict kvs) = forallb (fun kv => Wire.json_valid kv.2) kvs.
Proof. intros H. unfold dict. cbn [Wire.json_valid]. now apply fold_and_list. Qed.

Lemma serializable_dict_list (kvs : list (string * Value)) :
  NoDup kvs.*1 ->
  serializable (dict kvs) = forallb (fun kv => serializable kv.2) kvs.
Proof. intros H. unfold dict. cbn [serializable]. now apply fold_and_list. Qed.

Ltac solve_NoDup :=
  repeat (apply NoDup_cons; split;
          [rewrite ?elem_of_cons, elem_of_nil; intros Hin;
           repeat (destruct Hin as [Hin|Hin]; [discriminate Hin|]);
           exact Hin|]);
  apply NoDup_nil_2.

Ltac eval_lookups :=
  repeat match goal with
         | |- context [list_to_map ?l !! ?k] =>
             let r := eval cbv in (list_to_map l !! k) in
             change (list_to_map l !! k) with r
         end.

Lemma deserializes_error_reply (kind_ message : Value) :
  Wire.deserializes (list_to_map [("type", kind_); ("message", message)])
  = false.
Proof.
  unfold Wire.deserializes, Wire.required_string, Wire.optional_field.
  eval_lookups. apply andb_false_r.
Qed.

Lemma deserializes_prediction_reply (score conf : f64) (now : string) :
  Wire.deserializes
    (list_to_map [("type", VStr "prediction"); ("score", VFloat score);
                  ("confidence", VFloat conf); ("timestamp", VStr now)])
  = F64.is_finite score && F64.is_finite conf.
Proof.
  unfold Wire.deserializes.
  change (VDict (list_to_map ?l)) with (dict l).
  rewrite json_valid_dict_list by solve_NoDup.
  unfold Wire.required_string, Wire.optional_field. eval_lookups.
  cbn [forallb snd Wire.json_valid Wire.is_f64].
  rewrite !andb_true_r. reflexivity.
Qed.

Lemma deserializes_batch_reply (scores : Value) (now : string) :
  Wire.deserializes
    (list_to_map [("type", VStr "batch_prediction"); ("scores", scores);
                  ("timestamp", VStr now)])
  = Wire.json_valid scores &&
    match scores with VNone => true | _ => Wire.is_f64_list scores end.
Proof.
  unfold Wire.deserializes.
  change (VDict (list_to_map ?l)) with (dict l).
  rewrite json_valid_dict_list by solve_NoDup.
  unfold Wire.required_string, Wire.optional_field. eval_lookups.
  cbn [forallb snd Wire.json_valid].
  rewrite !andb_true_r. destruct scores; reflexivity.
Qed.

Lemma scores_valid (scores : list f64) :
  Wire.json_valid (VList (map VFloat scores)) = forallb F64.is_finite scores /\
  Wire.is_f64_list (VList (map VFloat scores)) = true.
Proof.
  cbn [Wire.json_valid Wire.is_f64_list].
  induction scores as [|s scores [IH1 IH2]]; [auto|].
  cbn [map forallb Wire.json_valid Wire.is_f64]. rewrite IH1, IH2. auto.
Qed.

(** The client cannot read the server's error replies: they carry no
    ["timestamp"], which [MLResponse] requires.  So whenever the handler
    leaves its loop through an exception, the last text it sent is one
    the client reports as a deserialization error. *)
Theorem error_replies_do_not_deserialize e
  (frames : list (option Value * string)) :
  (forall exn, exists d,
     error_response exn = VDict d /\ Wire.deserializes d = false) /\
  match handle_client' e frames with
  | (sent, _, false) =>
      exists d, last sent = Some (VDict d) /\ Wire.deserializes d = false
  | (_, _, true) => True
  end.
Proof.
  assert (Herr : forall exn, exists d,
    error_response exn = VDict d /\ Wire.deserializes d = false).
  { intros exn. eexists. split; [reflexivity|].
    apply deserializes_error_reply. }
  split; [exact Herr|].
  revert e. induction frames as [|[frame now] frames IH]; intros e.
  - exact I.
  - cbn [handle_client].
    destruct (handle_message' e frame now) as [[reply|exn] e1].
    + specialize (IH e1).
      destruct (handle_client' e1 frames) as [[sent e2] [|]]; [exact I|].
      destruct IH as (d & Hlast & Hd). exists d. split; [|exact Hd].
      destruct sent as [|r sent]; [discriminate Hlast|exact Hlast].
    + destruct (Herr exn) as (d & -> & Hd). exists d. auto.
Qed.

(** The reply to a predict request that succeeds is one the client can
    read exactly when the score and the confidence are finite: a NaN or
    infinite score is written as [NaN] or [Infinity], which is not JSON
    for the client. *)
Theorem prediction_reply_deserializes e (data opp : Value) (now : string)
  (score : f64) :
  getitem data "type" = Ok (VStr "predict") ->
  getitem data "opportunity" = Ok opp ->
  (predict e opp).1 = Ok score ->
  exists d,
    (handle_message' e (Some data) now).1 = Ok (VDict d) /\
    Wire.deserializes d =
      F64.is_finite score &&
      F64.is_finite (min2 (F64.div (SFabs score) (F64.of_Z 100))
                          (F64.of_Z 1)).
Proof.
  intros Hty Hopp Hp. unfold handle_message. rewrite Hty.
  cbn [mbind Result_bind mret Result_ret].
  change (eq_str (VStr "predict") "train") with false.
  change (eq_str (VStr "predict") "predict") with true. cbv beta iota.
  rewrite Hopp. destruct (predict e opp) as [r e1]. simpl in Hp. subst r.
  eexists. split; [reflexivity|]. apply deserializes_prediction_reply.
Qed.

(** The reply to a batch request whose predictions succeed is one the
    client can read exactly when the batch does not hold one opportunity
    and every score is finite: for a batch of one, ["scores"] is a number
    where the client expects an array. *)
Theorem batch_reply_deserializes e (data : Value) (opps : list Value)
  (now : string) (scores : list f64) :
  getitem data "type" = Ok (VStr "batch_predict") ->
  getitem data "opportunities" = Ok (VList opps) ->
  Forall2 (fun opp s => (predict e opp).1 = Ok s) opps scores ->
  exists d,
    (handle_message' e (Some data) now).1 = Ok (VDict d) /\
    Wire.deserializes d =
      negb (length opps =? 1)%nat && forallb F64.is_finite scores.
Proof.
  intros Hty Hopps Hall. unfold handle_message. rewrite Hty.
  cbn [mbind Result_bind mret Result_ret].
  change (eq_str (VStr "batch_predict") "train") with false.
  change (eq_str (VStr "batch_predict") "predict") with false.
  change (eq_str (VStr "batch_predict") "batch_predict") with true.
  cbv beta iota. rewrite Hopps.
  assert (Hb : exists sv,
    (batch_predict e (VList opps)).1 = Ok sv /\
    (forall x, sv <> VFloat32 x) /\ Py.serializable sv = true /\
    Wire.json_valid sv &&
      match sv with VNone => true | _ => Wire.is_f64_list sv end
    = negb (length opps =? 1)%nat && forallb F64.is_finite scores).
  { destruct opps as [|o1 [|o2 opps]].
    - inversion Hall; subst. exists (VList []). repeat split; discriminate.
    - inversion Hall as [|? s ? ? H1 Hnil]; subst. inversion Hnil; subst.
      apply EngineProps.predict_Ok_inv in H1
        as (features & f & Hf & Hlen & Hs & Hfw).
      exists (VFloat s). split.
      + unfold batch_predict. simpl. rewrite Hf. simpl.
        rewrite Nat.eqb_refl. simpl. rewrite Hlen, Hfw. simpl.
        rewrite Hs. reflexivity.
      + repeat split; try discriminate.
        cbn [Wire.json_valid Wire.is_f64_list length Nat.eqb negb].
        apply andb_false_r.
    - exists (VList (map VFloat scores)). split.
      + apply EngineProps.batch_predict_many; [simpl; lia|exact Hall].
      + destruct (scores_valid scores) as [Hv Hl].
        repeat split; try discriminate.
        * clear. induction scores as [|s scores IH]; [reflexivity|exact IH].
        * rewrite Hv, Hl. cbn [length Nat.eqb negb]. apply andb_true_r. }
  destruct Hb as (sv & Hsv & Hno & Hser & Hd).
  destruct (batch_predict e (VList opps)) as [r e1]. simpl in Hsv. subst r.
  cbn [mbind Result_bind fst].
  eexists. split.
  - unfold json_dumps.
    replace (serializable
               (dict [("type", VStr "batch_prediction"); ("scores", sv);
                      ("timestamp", VStr now)])) with true; [reflexivity|].
    rewrite serializable_dict_list by solve_NoDup.
    cbn [forallb snd serializable]. rewrite Hser. reflexivity.
  - rewrite deserializes_batch_reply. exact Hd.
Qed.

End Backend.

Lemma prediction_reply_deserializes_witness :
  let data := Examples.predict_request Examples.empty_opportunity in
  let score := IEEE.lit 24 128 13 10 in
  getitem data "type" = Ok (VStr "predict") /\
  getitem data "opportunity" = Ok Examples.empty_opportunity /\
  (predict Examples.engine Examples.empty_opportunity).1 = Ok score /\
  exists d,
    (handle_message Examples.forward_train Examples.optimizer_step
       Examples.probe_gradient Examples.engine (Some data) "t0").1
      = Ok (VDict d) /\
    Wire.deserializes d =
      F64.is_finite score &&
      F64.is_finite (min2 (F64.div (SFabs score) (F64.of_Z 100))
                          (F64.of_Z 1)).
Proof.
  split; [reflexivity|]. split; [reflexivity|].
  split; [vm_compute; reflexivity|].
  apply (prediction_reply_deserializes Examples.forward_train
           Examples.optimizer_step Examples.probe_gradient Examples.engine
           (Examples.predict_request Examples.empty_opportunity)
           Examples.empty_opportunity "t0" (IEEE.lit 24 128 13 10));
    [reflexivity|reflexivity|vm_compute; reflexivity].
Defined.

Lemma batch_reply_deserializes_witness :
  let opps := [Examples.empty_opportunity] in
  let data := Examples.batch_predict_request opps in
  let scores := [IEEE.lit 24 128 13 10] in
  getitem data "type" = Ok (VStr "batch_predict") /\
  getitem data "opportunities" = Ok (VList opps) /\
  Forall2 (fun opp s => (predict Examples.engine opp).1 = Ok s) opps scores /\
  exists d,
    (handle_message Examples.forward_train Examples.optimizer_step
       Examples.probe_gradient Examples.engine (Some data) "t0").1
      = Ok (VDict d) /\
    Wire.deserializes d =
      negb (length opps =? 1)%nat && forallb F64.is_finite scores.
Proof.
  assert (H : Forall2 (fun opp s => (predict Examples.engine opp).1 = Ok s)
                [Examples.empty_opportunity] [IEEE.lit 24 128 13 10]).
  { repeat constructor. }
  split; [reflexivity|]. split; [reflexivity|]. split; [exact H|].
  apply (batch_reply_deserializes Examples.forward_train
           Examples.optimizer_step Examples.probe_gradient Examples.engine
           (Examples.batch_predict_request [Examples.empty_opportunity])
           [Examples.empty_opportunity] "t0" [IEEE.lit 24 128 13 10]);
    [reflexivity|reflexivity|exact H].
Defined.

End WireProps.

(** ** The execution predictor *)

Module MevOptimizerProps.
Import Py Torch MevOptimizer.

(** [features_to_tensor] builds seven features, and the first layer takes
    [input_dim] of them: the network can be run only when it was built
    with [input_dim = 7].  With any other dimension, the default of 20
    among them, the forward pass raises whatever the features are, so
    [predict_opportunity] never returns. *)
Theorem predict_needs_seven_features (float_mod : f64 -> f64 -> f64)
  (input_dim hidden_dim : nat)
  (w1 : list (list f32)) (b1 : list f32)
  (w2 : list (list f32)) (b2 : list f32)
  (w3 : list (list f32)) (b3 : list f32)
  (mask : list f32) (features : Value) :
  input_dim <> 7%nat ->
  is_ok (predict_output float_mod
           (init input_dim hidden_dim w1 b1 w2 b2 w3 b3) mask features)
  = false.
Proof.
  intros Hdim. unfold predict_output.
  destruct (features_to_tensor float_mod features) as [x|exn] eqn:Hx;
    [|reflexivity].
  cbn [mbind Result_bind].
  unfold features_to_tensor in Hx.
  do 7 (apply EngineProps.bind_Ok_inv in Hx as (? & _ & Hx)).
  unfold tensor in Hx.
  destruct (traverse to_float32 _) as [v|exn] eqn:Hv; [|discriminate Hx].
  injection Hx as <-.
  apply EngineProps.traverse_length in Hv. cbn [length] in Hv.
  unfold forward, init. cbn [network training foldl].
  cbn [apply_layer accepts mbind Result_bind]. rewrite Hv.
  destruct (Nat.eqb_spec 7 input_dim) as [Heq|_]; [congruence|].
  reflexivity.
Qed.

Lemma predict_needs_seven_features_witness :
  20%nat <> 7%nat /\
  is_ok (predict_output (fun x _ => x)
           (init 20 128 [] [] [] [] [] []) []
           (dict [("spread_percent", Py.of_Z 1); ("volume_usd", Py.of_Z 1);
                  ("gas_price_gwei", Py.of_Z 1); ("block_number", Py.of_Z 1);
                  ("mempool_density", Py.of_Z 1); ("volatility_1h", Py.of_Z 1);
                  ("dex_liquidity", Py.of_Z 1)]))
  = false.
Proof.
  split; [discriminate|].
  apply (predict_needs_seven_features (fun x _ => x) 20 128 [] [] [] [] [] []).
  discriminate.
Defined.

End MevOptimizerProps.
